(** * LandDetector: the periodic land-detection driver

    A shallow embedding of [src/modules/land_detector/LandDetector.cpp]
    (PX4 firmware).  [LandDetector::Run] is the body of one cycle; it is
    embedded as a computation in a small state monad over the object's
    member variables, the durable parameter storage and the log of the
    calls the cycle makes to its collaborators (scheduler, publisher,
    vehicle-specific subclass).

    Integers are [Z] with the wrap-around of their C++ type written out.
    [float] is IEEE-754 binary32, taken from the Standard Library's
    [SpecFloat].  Times are [hrt_abstime]: microseconds in a [uint64_t]. *)

From Stdlib Require Import ZArith Bool List Lia.
From Stdlib Require Import Floats.SpecFloat.
Import ListNotations.
Local Open Scope Z_scope.

(** ** Fixed-width integers *)

Module Word.

(** [static_cast<uint64_t>], and the result of every [uint64_t]
    operation. *)
Definition to_uint64 (z : Z) : Z := z mod 2 ^ 64.

(** [static_cast<uint32_t>], and the conversion of an initialiser of a
    [uint32_t] variable. *)
Definition to_uint32 (z : Z) : Z := z mod 2 ^ 32.

(** Conversion to [int32_t] (two's complement), as when a [uint32_t] is
    passed where an [int32_t] is expected. *)
Definition to_int32 (z : Z) : Z :=
  let u := z mod 2 ^ 32 in
  if u <? 2 ^ 31 then u else u - 2 ^ 32.

Definition is_uint64 (z : Z) : Prop := 0 <= z < 2 ^ 64.
Definition is_uint32 (z : Z) : Prop := 0 <= z < 2 ^ 32.
Definition is_int32 (z : Z) : Prop := - 2 ^ 31 <= z < 2 ^ 31.

End Word.

(** ** Single-precision floats *)

Module Float32.

Definition prec : Z := 24.
Definition emax : Z := 128.

Definition float : Type := spec_float.

(** [0.0f], [INFINITY] of <math.h> and [FLT_EPSILON] of <float.h>
    (2^-23, written with a 24-bit mantissa). *)
Definition zero : float := S754_zero false.
Definition INFINITY : float := S754_infinity false.
Definition FLT_EPSILON : float := S754_finite false 8388608 (-46).

(** [a > b] *)
Definition gt (a b : float) : bool := SFltb b a.

(** [a - b] *)
Definition sub (a b : float) : float := SFsub prec emax a b.

Definition fabsf (a : float) : float := SFabs a.

End Float32.

(** ** The flight-time accumulator at the persistence boundary *)

(** Lines 160 and 165: the two [uint32_t] values of [flight_time]. *)
Definition flight_time_high (total_flight_time : Z) : Z :=
  Word.to_uint32 (Z.land (Z.shiftr total_flight_time 32) 0xffffffff).

Definition flight_time_low (total_flight_time : Z) : Z :=
  Word.to_uint32 (Z.land total_flight_time 0xffffffff).

(** Lines 78-79: the accumulator rebuilt from the two [int32_t] parameter
    values. *)
Definition total_flight_time_of_params (high low : Z) : Z :=
  Z.lor (Word.to_uint64 (Z.shiftl (Word.to_uint64 high) 32))
        (Word.to_uint32 low).

(** ** Messages and member variables *)

Import Float32.

(** [vehicle_land_detected_s]: the published LandDetectionResult. *)
Record vehicle_land_detected_s : Type := {
  timestamp : Z;
  alt_max : float;
  freefall : bool;
  ground_contact : bool;
  maybe_landed : bool;
  landed : bool;
  in_ground_effect : bool
}.

(** [vehicle_local_position_s], restricted to the two fields [Run]
    reads. *)
Record vehicle_local_position_s : Type := {
  dist_bottom_valid : bool;
  dist_bottom_sensor_bitfield : Z
}.

(** [1_s] and [50_ms] of [time_literals]: microseconds. *)
Definition _1_s : Z := 1000000.
Definition _50_ms : Z := 50000.

(** Modelled from the spec: [hrt_elapsed_time] is declared in the
    high-resolution-timer driver header, which is not part of LandDetector.cpp.
    It reads the clock and returns the [hrt_abstime] elapsed since [then]
    ("1 second has elapsed since the last publish"). *)
Definition hrt_elapsed_time (clock then_ : Z) : Z :=
  Word.to_uint64 (clock - then_).

(** The two parameters of the flight-time accumulator. *)
Inductive flight_time_param : Type :=
| total_flight_time_high
| total_flight_time_low.

(** Calls of [Run] to its collaborators, in the order they are made. *)
Inductive call : Type :=
| CallScheduleDelayed (delay_us : Z)
| CallScheduleClear
| CallRegisterCallback
| CallExitAndCleanup
| CallPerfBegin
| CallPerfEnd
| CallUpdateParams
| CallUpdateParamsOfSubclass
| CallUpdateTopics
| CallSetHysteresisFactor (factor : Z)
| CallPublish (msg : vehicle_land_detected_s)
| CallCommitNoNotification (p : flight_time_param) (value : Z).

(** [vehicle_status_s]: [Run] caches the message for the subclass and
    reads none of its fields; only the time stamp that every uORB message
    carries is kept. *)
Record vehicle_status_s : Type := {
  status_timestamp : Z
}.

(** The member variables of [LandDetector] that [Run] reads or writes.
    The two [_param_] fields are the values cached in the parameter
    objects ([get()] and [set()] act on them). *)
Record LandDetector : Type := {
  _land_detected : vehicle_land_detected_s;
  _vehicle_local_position : vehicle_local_position_s;
  _vehicle_status : vehicle_status_s;
  _acceleration : float * float * float;
  _armed : bool;
  _previous_armed_state : bool;
  _dist_bottom_is_observable : bool;
  _high_hysteresis_active : bool;
  _takeoff_time : Z;
  _total_flight_time : Z;
  _param_total_flight_time_high : Z;
  _param_total_flight_time_low : Z
}.

(** What one cycle observes of its collaborators: the new message of
    each subscription that has one, the three readings of
    [hrt_absolute_time()], the states of the five [Hysteresis] objects
    after [set_state_and_update] (their class and the vehicle-specific
    predicates that feed them are not part of LandDetector.cpp), the subclass's
    maximum altitude (line 127 reads it twice; it is a function of the
    cached state), and [should_exit()]. *)
Record cycle : Type := {
  actuator_armed_update : option bool;
  vehicle_acceleration_update : option (float * float * float);
  vehicle_local_position_update : option vehicle_local_position_s;
  vehicle_status_update : option vehicle_status_s;
  now_us : Z;                (* line 115 *)
  elapsed_clock : Z;         (* inside hrt_elapsed_time, line 131 *)
  publish_clock : Z;         (* line 150 *)
  freefall_hysteresis_state : bool;
  ground_contact_hysteresis_state : bool;
  maybe_landed_hysteresis_state : bool;
  landed_hysteresis_state : bool;
  ground_effect_hysteresis_state : bool;
  max_altitude : float;
  should_exit : bool
}.

(** Modelled from the spec: the parameter store and the parameter-update
    channel are not part of LandDetector.cpp.  "Parameter store: two independent
    32-bit numeric slots for the flight-time halves, readable at
    startup/parameter-refresh and writable with a no-notification commit
    variant"; [parameter_update_pending] is the "has update?" state of
    the engine's subscription to parameter-update notifications. *)
Record machine : Type := {
  self : LandDetector;
  stored_flight_time_high : Z;
  stored_flight_time_low : Z;
  parameter_update_pending : bool;
  calls : list call
}.

(** *** Field updates *)

Definition with_land_detected v (d : LandDetector) : LandDetector :=
  {| _land_detected := v;
     _vehicle_local_position := _vehicle_local_position d;
     _vehicle_status := _vehicle_status d;
     _acceleration := _acceleration d;
     _armed := _armed d;
     _previous_armed_state := _previous_armed_state d;
     _dist_bottom_is_observable := _dist_bottom_is_observable d;
     _high_hysteresis_active := _high_hysteresis_active d;
     _takeoff_time := _takeoff_time d;
     _total_flight_time := _total_flight_time d;
     _param_total_flight_time_high := _param_total_flight_time_high d;
     _param_total_flight_time_low := _param_total_flight_time_low d |}.

Definition with_vehicle_local_position v (d : LandDetector)
    : LandDetector :=
  {| _land_detected := _land_detected d;
     _vehicle_local_position := v;
     _vehicle_status := _vehicle_status d;
     _acceleration := _acceleration d;
     _armed := _armed d;
     _previous_armed_state := _previous_armed_state d;
     _dist_bottom_is_observable := _dist_bottom_is_observable d;
     _high_hysteresis_active := _high_hysteresis_active d;
     _takeoff_time := _takeoff_time d;
     _total_flight_time := _total_flight_time d;
     _param_total_flight_time_high := _param_total_flight_time_high d;
     _param_total_flight_time_low := _param_total_flight_time_low d |}.

Definition with_vehicle_status v (d : LandDetector) : LandDetector :=
  {| _land_detected := _land_detected d;
     _vehicle_local_position := _vehicle_local_position d;
     _vehicle_status := v;
     _acceleration := _acceleration d;
     _armed := _armed d;
     _previous_armed_state := _previous_armed_state d;
     _dist_bottom_is_observable := _dist_bottom_is_observable d;
     _high_hysteresis_active := _high_hysteresis_active d;
     _takeoff_time := _takeoff_time d;
     _total_flight_time := _total_flight_time d;
     _param_total_flight_time_high := _param_total_flight_time_high d;
     _param_total_flight_time_low := _param_total_flight_time_low d |}.

Definition with_acceleration v (d : LandDetector) : LandDetector :=
  {| _land_detected := _land_detected d;
     _vehicle_local_position := _vehicle_local_position d;
     _vehicle_status := _vehicle_status d;
     _acceleration := v;
     _armed := _armed d;
     _previous_armed_state := _previous_armed_state d;
     _dist_bottom_is_observable := _dist_bottom_is_observable d;
     _high_hysteresis_active := _high_hysteresis_active d;
     _takeoff_time := _takeoff_time d;
     _total_flight_time := _total_flight_time d;
     _param_total_flight_time_high := _param_total_flight_time_high d;
     _param_total_flight_time_low := _param_total_flight_time_low d |}.

Definition with_armed v (d : LandDetector) : LandDetector :=
  {| _land_detected := _land_detected d;
     _vehicle_local_position := _vehicle_local_position d;
     _vehicle_status := _vehicle_status d;
     _acceleration := _acceleration d;
     _armed := v;
     _previous_armed_state := _previous_armed_state d;
     _dist_bottom_is_observable := _dist_bottom_is_observable d;
     _high_hysteresis_active := _high_hysteresis_active d;
     _takeoff_time := _takeoff_time d;
     _total_flight_time := _total_flight_time d;
     _param_total_flight_time_high := _param_total_flight_time_high d;
     _param_total_flight_time_low := _param_total_flight_time_low d |}.

Definition with_previous_armed_state v (d : LandDetector)
    : LandDetector :=
  {| _land_detected := _land_detected d;
     _vehicle_local_position := _vehicle_local_position d;
     _vehicle_status := _vehicle_status d;
     _acceleration := _acceleration d;
     _armed := _armed d;
     _previous_armed_state := v;
     _dist_bottom_is_observable := _dist_bottom_is_observable d;
     _high_hysteresis_active := _high_hysteresis_active d;
     _takeoff_time := _takeoff_time d;
     _total_flight_time := _total_flight_time d;
     _param_total_flight_time_high := _param_total_flight_time_high d;
     _param_total_flight_time_low := _param_total_flight_time_low d |}.

Definition with_dist_bottom_is_observable v (d : LandDetector)
    : LandDetector :=
  {| _land_detected := _land_detected d;
     _vehicle_local_position := _vehicle_local_position d;
     _vehicle_status := _vehicle_status d;
     _acceleration := _acceleration d;
     _armed := _armed d;
     _previous_armed_state := _previous_armed_state d;
     _dist_bottom_is_observable := v;
     _high_hysteresis_active := _high_hysteresis_active d;
     _takeoff_time := _takeoff_time d;
     _total_flight_time := _total_flight_time d;
     _param_total_flight_time_high := _param_total_flight_time_high d;
     _param_total_flight_time_low := _param_total_flight_time_low d |}.

Definition with_high_hysteresis_active v (d : LandDetector)
    : LandDetector :=
  {| _land_detected := _land_detected d;
     _vehicle_local_position := _vehicle_local_position d;
     _vehicle_status := _vehicle_status d;
     _acceleration := _acceleration d;
     _armed := _armed d;
     _previous_armed_state := _previous_armed_state d;
     _dist_bottom_is_observable := _dist_bottom_is_observable d;
     _high_hysteresis_active := v;
     _takeoff_time := _takeoff_time d;
     _total_flight_time := _total_flight_time d;
     _param_total_flight_time_high := _param_total_flight_time_high d;
     _param_total_flight_time_low := _param_total_flight_time_low d |}.

Definition with_takeoff_time v (d : LandDetector) : LandDetector :=
  {| _land_detected := _land_detected d;
     _vehicle_local_position := _vehicle_local_position d;
     _vehicle_status := _vehicle_status d;
     _acceleration := _acceleration d;
     _armed := _armed d;
     _previous_armed_state := _previous_armed_state d;
     _dist_bottom_is_observable := _dist_bottom_is_observable d;
     _high_hysteresis_active := _high_hysteresis_active d;
     _takeoff_time := v;
     _total_flight_time := _total_flight_time d;
     _param_total_flight_time_high := _param_total_flight_time_high d;
     _param_total_flight_time_low := _param_total_flight_time_low d |}.

Definition with_total_flight_time v (d : LandDetector) : LandDetector :=
  {| _land_detected := _land_detected d;
     _vehicle_local_position := _vehicle_local_position d;
     _vehicle_status := _vehicle_status d;
     _acceleration := _acceleration d;
     _armed := _armed d;
     _previous_armed_state := _previous_armed_state d;
     _dist_bottom_is_observable := _dist_bottom_is_observable d;
     _high_hysteresis_active := _high_hysteresis_active d;
     _takeoff_time := _takeoff_time d;
     _total_flight_time := v;
     _param_total_flight_time_high := _param_total_flight_time_high d;
     _param_total_flight_time_low := _param_total_flight_time_low d |}.

Definition with_param_total_flight_time_high v (d : LandDetector)
    : LandDetector :=
  {| _land_detected := _land_detected d;
     _vehicle_local_position := _vehicle_local_position d;
     _vehicle_status := _vehicle_status d;
     _acceleration := _acceleration d;
     _armed := _armed d;
     _previous_armed_state := _previous_armed_state d;
     _dist_bottom_is_observable := _dist_bottom_is_observable d;
     _high_hysteresis_active := _high_hysteresis_active d;
     _takeoff_time := _takeoff_time d;
     _total_flight_time := _total_flight_time d;
     _param_total_flight_time_high := v;
     _param_total_flight_time_low := _param_total_flight_time_low d |}.

Definition with_param_total_flight_time_low v (d : LandDetector)
    : LandDetector :=
  {| _land_detected := _land_detected d;
     _vehicle_local_position := _vehicle_local_position d;
     _vehicle_status := _vehicle_status d;
     _acceleration := _acceleration d;
     _armed := _armed d;
     _previous_armed_state := _previous_armed_state d;
     _dist_bottom_is_observable := _dist_bottom_is_observable d;
     _high_hysteresis_active := _high_hysteresis_active d;
     _takeoff_time := _takeoff_time d;
     _total_flight_time := _total_flight_time d;
     _param_total_flight_time_high := _param_total_flight_time_high d;
     _param_total_flight_time_low := v |}.

Definition with_self v (m : machine) : machine :=
  {| self := v;
     stored_flight_time_high := stored_flight_time_high m;
     stored_flight_time_low := stored_flight_time_low m;
     parameter_update_pending := parameter_update_pending m;
     calls := calls m |}.

Definition with_stored_flight_time_high v (m : machine) : machine :=
  {| self := self m;
     stored_flight_time_high := v;
     stored_flight_time_low := stored_flight_time_low m;
     parameter_update_pending := parameter_update_pending m;
     calls := calls m |}.

Definition with_stored_flight_time_low v (m : machine) : machine :=
  {| self := self m;
     stored_flight_time_high := stored_flight_time_high m;
     stored_flight_time_low := v;
     parameter_update_pending := parameter_update_pending m;
     calls := calls m |}.

Definition with_parameter_update_pending v (m : machine) : machine :=
  {| self := self m;
     stored_flight_time_high := stored_flight_time_high m;
     stored_flight_time_low := stored_flight_time_low m;
     parameter_update_pending := v;
     calls := calls m |}.

Definition with_calls v (m : machine) : machine :=
  {| self := self m;
     stored_flight_time_high := stored_flight_time_high m;
     stored_flight_time_low := stored_flight_time_low m;
     parameter_update_pending := parameter_update_pending m;
     calls := v |}.

(** *** The monad of a cycle *)

Definition M (A : Type) : Type := machine -> A * machine.

Definition ret {A} (a : A) : M A := fun m => (a, m).

Definition bind {A B} (p : M A) (k : A -> M B) : M B :=
  fun m => let (a, m') := p m in k a m'.

Declare Scope cycle_scope.
Delimit Scope cycle_scope with cycle.
Notation "x <- p ;; k" := (bind p (fun x => k))
  (at level 61, p at next level, right associativity) : cycle_scope.
Notation "p ;; k" := (bind p (fun _ => k))
  (at level 61, right associativity) : cycle_scope.
Local Open Scope cycle_scope.

Definition exec {A} (p : M A) (m : machine) : machine := snd (p m).

Definition when (b : bool) (p : M unit) : M unit :=
  if b then p else ret tt.

(** Read a member variable, or an expression over them. *)
Definition gets {A} (f : LandDetector -> A) : M A :=
  fun m => (f (self m), m).

(** Assign to a member variable. *)
Definition assign (f : LandDetector -> LandDetector) : M unit :=
  fun m => (tt, with_self (f (self m)) m).

Definition emit (c : call) : M unit :=
  fun m => (tt, with_calls (calls m ++ [c]) m).

(** *** Collaborators *)

Definition ScheduleDelayed (delay_us : Z) : M unit :=
  emit (CallScheduleDelayed delay_us).
Definition ScheduleClear : M unit := emit CallScheduleClear.
Definition registerCallback : M unit := emit CallRegisterCallback.
Definition exit_and_cleanup : M unit := emit CallExitAndCleanup.
Definition perf_begin : M unit := emit CallPerfBegin.
Definition perf_end : M unit := emit CallPerfEnd.
Definition _update_params : M unit := emit CallUpdateParamsOfSubclass.
Definition _update_topics : M unit := emit CallUpdateTopics.
Definition _set_hysteresis_factor (factor : Z) : M unit :=
  emit (CallSetHysteresisFactor factor).

(** Modelled from the spec: the subscription class is not part of
    LandDetector.cpp.  [_parameter_update_sub.updated()] and [.copy()], with the
    "has update? copy if so" semantics of the telemetry bus: copying marks
    the latest notification as seen. *)
Definition parameter_update_sub_updated : M bool :=
  fun m => (parameter_update_pending m, m).
Definition parameter_update_sub_copy : M unit :=
  fun m => (tt, with_parameter_update_pending false m).

(** Modelled from the spec: the parameter classes are not part of
    LandDetector.cpp.  [updateParams()]: the parameters are "re-read",
    every parameter object reloads its value from the store. *)
Definition updateParams : M unit :=
  emit CallUpdateParams ;;
  fun m =>
    (tt, with_self
           (with_param_total_flight_time_low (stored_flight_time_low m)
              (with_param_total_flight_time_high (stored_flight_time_high m)
                 (self m))) m).

(** Modelled from the spec: [_param_total_flight_time_high.set(v)] on a
    "32-bit numeric slot", here with a [uint32_t] argument for an [int32_t]
    parameter. *)
Definition param_total_flight_time_high_set (v : Z) : M unit :=
  assign (with_param_total_flight_time_high (Word.to_int32 v)).
Definition param_total_flight_time_low_set (v : Z) : M unit :=
  assign (with_param_total_flight_time_low (Word.to_int32 v)).

(** Modelled from the spec: [commit_no_notification()], the "no
    notification commit variant".  The value of the parameter object goes
    to the store; no parameter-update notification is raised. *)
Definition param_total_flight_time_high_commit_no_notification : M unit :=
  v <- gets _param_total_flight_time_high ;;
  emit (CallCommitNoNotification total_flight_time_high v) ;;
  fun m => (tt, with_stored_flight_time_high v m).
Definition param_total_flight_time_low_commit_no_notification : M unit :=
  v <- gets _param_total_flight_time_low ;;
  emit (CallCommitNoNotification total_flight_time_low v) ;;
  fun m => (tt, with_stored_flight_time_low v m).

(** [_vehicle_land_detected_pub.publish(_land_detected)] *)
Definition publish_land_detected : M unit :=
  msg <- gets _land_detected ;;
  emit (CallPublish msg).

(** Modelled from the spec: a parameter written from outside the engine
    (by a ground station, say) between two cycles.  The store changes and
    a parameter-update notification is raised. *)
Definition external_param_set (p : flight_time_param) (v : Z)
    (m : machine) : machine :=
  with_parameter_update_pending true
    match p with
    | total_flight_time_high => with_stored_flight_time_high v m
    | total_flight_time_low => with_stored_flight_time_low v m
    end.

(** *** [LandDetector::start] *)

Definition start : M unit :=
  ScheduleDelayed _50_ms ;;
  registerCallback.

(** *** [LandDetector::Run] *)

Section Engine.

(** Declared in the generated uORB header of [vehicle_local_position_s],
    which is not part of LandDetector.cpp: the ranging-sensor bit of
    [dist_bottom_sensor_bitfield]. *)
Variable DIST_BOTTOM_SENSOR_RANGE : Z.

(** Lines 71-80. *)
Definition refresh_parameters : M unit :=
  updated <- parameter_update_sub_updated ;;
  ts <- gets (fun d => timestamp (_land_detected d)) ;;
  when (updated || (ts =? 0))
    (parameter_update_sub_copy ;;
     updateParams ;;
     _update_params ;;
     high <- gets _param_total_flight_time_high ;;
     assign (with_total_flight_time
               (Word.to_uint64 (Z.shiftl (Word.to_uint64 high) 32))) ;;
     low <- gets _param_total_flight_time_low ;;
     total <- gets _total_flight_time ;;
     assign (with_total_flight_time (Z.lor total (Word.to_uint32 low)))).

(** Lines 82-97. *)
Definition update_subscriptions (c : cycle) : M unit :=
  match actuator_armed_update c with
  | Some armed => assign (with_armed armed)
  | None => ret tt
  end ;;
  match vehicle_acceleration_update c with
  | Some xyz => assign (with_acceleration xyz)
  | None => ret tt
  end ;;
  match vehicle_local_position_update c with
  | Some lpos => assign (with_vehicle_local_position lpos)
  | None => ret tt
  end ;;
  match vehicle_status_update c with
  | Some status => assign (with_vehicle_status status)
  | None => ret tt
  end ;;
  _update_topics.

(** Lines 99-113. *)
Definition update_dist_bottom_observability : M unit :=
  observable <- gets _dist_bottom_is_observable ;;
  if negb observable then
    (* we consider the distance to the ground observable if the system
       is using a range sensor *)
    bitfield <- gets (fun d =>
      dist_bottom_sensor_bitfield (_vehicle_local_position d)) ;;
    assign (with_dist_bottom_is_observable
              (negb (Z.land bitfield DIST_BOTTOM_SENSOR_RANGE =? 0)))
  else
    active <- gets _high_hysteresis_active ;;
    valid <- gets (fun d => dist_bottom_valid (_vehicle_local_position d)) ;;
    if negb active && negb valid then
      _set_hysteresis_factor 3 ;;
      assign (with_high_hysteresis_active true)
    else if active && valid then
      _set_hysteresis_factor 1 ;;
      assign (with_high_hysteresis_active false)
    else ret tt.

(** Line 127. *)
Definition reportable_alt_max (c : cycle) : float :=
  if gt (max_altitude c) zero then max_altitude c else INFINITY.

(** Lines 131-137: the decision to publish. *)
Definition result_changed (c : cycle) (last : vehicle_land_detected_s)
    : bool :=
  negb (Bool.eqb (landed last) (landed_hysteresis_state c))
  || negb (Bool.eqb (freefall last) (freefall_hysteresis_state c))
  || negb (Bool.eqb (maybe_landed last) (maybe_landed_hysteresis_state c))
  || negb (Bool.eqb (ground_contact last) (ground_contact_hysteresis_state c))
  || negb (Bool.eqb (in_ground_effect last) (ground_effect_hysteresis_state c))
  || gt (fabsf (sub (alt_max last) (reportable_alt_max c))) FLT_EPSILON.

Definition publish_due (c : cycle) (last : vehicle_land_detected_s)
    : bool :=
  (_1_s <=? hrt_elapsed_time (elapsed_clock c) (timestamp last))
  || result_changed c last.

(** Lines 115-152.  Lines 117-121 advance the five [Hysteresis] objects
    at [now_us]; [c] holds the states they report afterwards. *)
Definition update_land_detected (c : cycle) : M unit :=
  let freefallDetected := freefall_hysteresis_state c in
  let ground_contactDetected := ground_contact_hysteresis_state c in
  let maybe_landedDetected := maybe_landed_hysteresis_state c in
  let landDetected := landed_hysteresis_state c in
  let alt_max := reportable_alt_max c in
  let in_ground_effect := ground_effect_hysteresis_state c in
  last <- gets _land_detected ;;
  (* publish at 1 Hz, very first time, or when the result has changed *)
  when (publish_due c last)
    (takeoff_time <- gets _takeoff_time ;;
     (* only set take off time once, until disarming *)
     when (negb landDetected && landed last && (takeoff_time =? 0))
       (* We did take off *)
       (assign (with_takeoff_time (now_us c))) ;;
     assign (with_land_detected
               {| timestamp := publish_clock c;
                  alt_max := alt_max;
                  freefall := freefallDetected;
                  ground_contact := ground_contactDetected;
                  maybe_landed := maybe_landedDetected;
                  landed := landDetected;
                  in_ground_effect := in_ground_effect |}) ;;
     publish_land_detected).

(** Lines 154-171: set the flight time when disarming. *)
Definition update_flight_time (c : cycle) : M unit :=
  takeoff_time <- gets _takeoff_time ;;
  armed <- gets _armed ;;
  previous_armed_state <- gets _previous_armed_state ;;
  when (negb (takeoff_time =? 0) && negb armed && previous_armed_state)
    (total <- gets _total_flight_time ;;
     assign (with_total_flight_time
               (Word.to_uint64
                  (total + Word.to_uint64 (now_us c - takeoff_time)))) ;;
     assign (with_takeoff_time 0) ;;
     total <- gets _total_flight_time ;;
     param_total_flight_time_high_set (flight_time_high total) ;;
     param_total_flight_time_high_commit_no_notification ;;
     total <- gets _total_flight_time ;;
     param_total_flight_time_low_set (flight_time_low total) ;;
     param_total_flight_time_low_commit_no_notification) ;;
  armed <- gets _armed ;;
  assign (with_previous_armed_state armed).

Definition Run (c : cycle) : M unit :=
  (* push backup schedule *)
  ScheduleDelayed _50_ms ;;
  perf_begin ;;
  refresh_parameters ;;
  update_subscriptions c ;;
  update_dist_bottom_observability ;;
  update_land_detected c ;;
  update_flight_time c ;;
  perf_end ;;
  when (should_exit c)
    (ScheduleClear ;;
     exit_and_cleanup).

(** The machine at the end of a cycle. *)
Definition run_cycle (c : cycle) (m : machine) : machine :=
  exec (Run c) m.

(** A run of the work item: one [Run] per scheduled cycle. *)
Fixpoint run_cycles (cs : list cycle) (m : machine) : machine :=
  match cs with
  | [] => m
  | c :: cs' => run_cycles cs' (run_cycle c m)
  end.

End Engine.

(** ** What a cycle decides

    The conditions and values that [Run] computes on its way, as functions
    of the machine at the start of the cycle and of the cycle's
    observations. *)

(** Line 71: the parameter-refresh branch runs. *)
Definition refresh_due (m : machine) : bool :=
  parameter_update_pending m || (timestamp (_land_detected (self m)) =? 0).

(** [_total_flight_time] after line 80. *)
Definition total_flight_time_after_refresh (m : machine) : Z :=
  if refresh_due m
  then total_flight_time_of_params (stored_flight_time_high m)
                                   (stored_flight_time_low m)
  else _total_flight_time (self m).

(** [_armed] after line 86. *)
Definition armed_after (c : cycle) (m : machine) : bool :=
  match actuator_armed_update c with
  | Some armed => armed
  | None => _armed (self m)
  end.

(** [_vehicle_local_position] after line 94. *)
Definition local_position_after (c : cycle) (m : machine)
    : vehicle_local_position_s :=
  match vehicle_local_position_update c with
  | Some lpos => lpos
  | None => _vehicle_local_position (self m)
  end.

(** The calls of lines 104-113 to the subclass's
    [_set_hysteresis_factor]. *)
Definition hysteresis_factor_calls (observable active valid : bool)
    : list call :=
  if observable then
    if negb active && negb valid then [CallSetHysteresisFactor 3]
    else if active && valid then [CallSetHysteresisFactor 1]
    else []
  else [].

(** The condition of lines 131-137 holds. *)
Definition published (c : cycle) (m : machine) : bool :=
  publish_due c (_land_detected (self m)).

(** The snapshot of lines 144-150. *)
Definition new_land_detected (c : cycle) : vehicle_land_detected_s :=
  {| timestamp := publish_clock c;
     alt_max := reportable_alt_max c;
     freefall := freefall_hysteresis_state c;
     ground_contact := ground_contact_hysteresis_state c;
     maybe_landed := maybe_landed_hysteresis_state c;
     landed := landed_hysteresis_state c;
     in_ground_effect := ground_effect_hysteresis_state c |}.

(** Line 141 is reached. *)
Definition takeoff_recorded (c : cycle) (m : machine) : bool :=
  published c m
  && (negb (landed_hysteresis_state c) && landed (_land_detected (self m))
      && (_takeoff_time (self m) =? 0)).

(** [_takeoff_time] after line 152. *)
Definition takeoff_time_after_publish (c : cycle) (m : machine) : Z :=
  if takeoff_recorded c m then now_us c else _takeoff_time (self m).

(** The condition of line 156 holds. *)
Definition disarm_processed (c : cycle) (m : machine) : bool :=
  negb (takeoff_time_after_publish c m =? 0)
  && negb (armed_after c m) && _previous_armed_state (self m).

(** [_total_flight_time] after line 169. *)
Definition total_flight_time_after_cycle (c : cycle) (m : machine) : Z :=
  if disarm_processed c m
  then Word.to_uint64
         (total_flight_time_after_refresh m
          + Word.to_uint64 (now_us c - takeoff_time_after_publish c m))
  else total_flight_time_after_refresh m.

(** [_dist_bottom_is_observable] and [_high_hysteresis_active] after
    line 113. *)
Definition dist_bottom_is_observable_after (DIST_BOTTOM_SENSOR_RANGE : Z)
    (c : cycle) (m : machine) : bool :=
  _dist_bottom_is_observable (self m)
  || negb (Z.land (dist_bottom_sensor_bitfield (local_position_after c m))
                  DIST_BOTTOM_SENSOR_RANGE =? 0).

Definition high_hysteresis_active_after (c : cycle) (m : machine) : bool :=
  if _dist_bottom_is_observable (self m)
  then negb (dist_bottom_valid (local_position_after c m))
  else _high_hysteresis_active (self m).

(** The two parameter values of lines 162 and 167. *)
Definition param_high_of (total : Z) : Z :=
  Word.to_int32 (flight_time_high total).
Definition param_low_of (total : Z) : Z :=
  Word.to_int32 (flight_time_low total).

(** The calls of one cycle. *)
Definition calls_of_cycle (c : cycle) (m : machine) : list call :=
  [CallScheduleDelayed _50_ms; CallPerfBegin]
  ++ (if refresh_due m
      then [CallUpdateParams; CallUpdateParamsOfSubclass] else [])
  ++ [CallUpdateTopics]
  ++ hysteresis_factor_calls
       (_dist_bottom_is_observable (self m))
       (_high_hysteresis_active (self m))
       (dist_bottom_valid (local_position_after c m))
  ++ (if published c m then [CallPublish (new_land_detected c)] else [])
  ++ (if disarm_processed c m
      then [CallCommitNoNotification total_flight_time_high
              (param_high_of (total_flight_time_after_cycle c m));
            CallCommitNoNotification total_flight_time_low
              (param_low_of (total_flight_time_after_cycle c m))]
      else [])
  ++ [CallPerfEnd]
  ++ (if should_exit c then [CallScheduleClear; CallExitAndCleanup] else []).

(** ** Observing a cycle *)

(** The calls made during one cycle: what [Run] appends to the log. *)
Definition calls_made (DIST_BOTTOM_SENSOR_RANGE : Z) (c : cycle)
    (m : machine) : list call :=
  skipn (length (calls m)) (calls (run_cycle DIST_BOTTOM_SENSOR_RANGE c m)).

(** The factors passed to [_set_hysteresis_factor], in order. *)
Fixpoint hysteresis_factors (l : list call) : list Z :=
  match l with
  | [] => []
  | CallSetHysteresisFactor factor :: l' => factor :: hysteresis_factors l'
  | _ :: l' => hysteresis_factors l'
  end.

(** The snapshots handed to the publisher, in order. *)
Fixpoint publications (l : list call) : list vehicle_land_detected_s :=
  match l with
  | [] => []
  | CallPublish msg :: l' => msg :: publications l'
  | _ :: l' => publications l'
  end.

(** The parameter values committed to the store, in order. *)
Fixpoint commits (l : list call) : list (flight_time_param * Z) :=
  match l with
  | [] => []
  | CallCommitNoNotification p v :: l' => (p, v) :: commits l'
  | _ :: l' => commits l'
  end.

(** The stored halves agree with the accumulator in memory. *)
Definition params_in_sync (m : machine) : Prop :=
  total_flight_time_of_params (stored_flight_time_high m)
                              (stored_flight_time_low m)
  = _total_flight_time (self m).

(** The vehicle is armed and no cycle of [cs] sees it disarmed. *)
Definition stays_armed (cs : list cycle) : Prop :=
  Forall (fun c => actuator_armed_update c <> Some false) cs.

(** ** Scenarios *)

(** An armed vehicle standing on the ground, last published at 900 ms;
    no ranging sensor seen yet, no flight time accumulated. *)
Definition on_ground_armed : machine :=
  {| self :=
       {| _land_detected :=
            {| timestamp := 900000;
               alt_max := INFINITY;
               freefall := false;
               ground_contact := true;
               maybe_landed := true;
               landed := true;
               in_ground_effect := false |};
          _vehicle_local_position :=
            {| dist_bottom_valid := false; dist_bottom_sensor_bitfield := 0 |};
          _vehicle_status := {| status_timestamp := 0 |};
          _acceleration := (zero, zero, zero);
          _armed := true;
          _previous_armed_state := true;
          _dist_bottom_is_observable := false;
          _high_hysteresis_active := false;
          _takeoff_time := 0;
          _total_flight_time := 0;
          _param_total_flight_time_high := 0;
          _param_total_flight_time_low := 0 |};
     stored_flight_time_high := 0;
     stored_flight_time_low := 0;
     parameter_update_pending := false;
     calls := [] |}.

(** A cycle at time [t] in which the vehicle is reported off the
    ground. *)
Definition flying_cycle (t : Z) : cycle :=
  {| actuator_armed_update := None;
     vehicle_acceleration_update := None;
     vehicle_local_position_update := None;
     vehicle_status_update := None;
     now_us := t;
     elapsed_clock := t + 1;
     publish_clock := t + 2;
     freefall_hysteresis_state := false;
     ground_contact_hysteresis_state := false;
     maybe_landed_hysteresis_state := false;
     landed_hysteresis_state := false;
     ground_effect_hysteresis_state := false;
     max_altitude := zero;
     should_exit := false |}.

(** The cycle at 1000 ms in which the vehicle is seen to leave the
    ground. *)
Definition takeoff_cycle : cycle := flying_cycle 1000000.

(** The cycle at 5000 ms in which the vehicle, in the air, is seen
    disarmed. *)
Definition disarm_cycle : cycle :=
  {| actuator_armed_update := Some false;
     vehicle_acceleration_update := None;
     vehicle_local_position_update := None;
     vehicle_status_update := None;
     now_us := 5000000;
     elapsed_clock := 5000001;
     publish_clock := 5000002;
     freefall_hysteresis_state := false;
     ground_contact_hysteresis_state := false;
     maybe_landed_hysteresis_state := false;
     landed_hysteresis_state := false;
     ground_effect_hysteresis_state := false;
     max_altitude := zero;
     should_exit := false |}.

(** A cycle at time [t] in which the vehicle, on the ground, is seen
    disarmed. *)
Definition disarm_on_ground_cycle (t : Z) : cycle :=
  {| actuator_armed_update := Some false;
     vehicle_acceleration_update := None;
     vehicle_local_position_update := None;
     vehicle_status_update := None;
     now_us := t;
     elapsed_clock := t + 1;
     publish_clock := t + 2;
     freefall_hysteresis_state := false;
     ground_contact_hysteresis_state := true;
     maybe_landed_hysteresis_state := true;
     landed_hysteresis_state := true;
     ground_effect_hysteresis_state := false;
     max_altitude := zero;
     should_exit := false |}.

(** A cycle at time [t], on the ground, that receives a position report
    with the given validity of the distance to ground and the given sensor
    bitfield. *)
Definition position_cycle (t : Z) (valid : bool) (bitfield : Z) : cycle :=
  {| actuator_armed_update := None;
     vehicle_acceleration_update := None;
     vehicle_local_position_update :=
       Some {| dist_bottom_valid := valid;
               dist_bottom_sensor_bitfield := bitfield |};
     vehicle_status_update := None;
     now_us := t;
     elapsed_clock := t + 1;
     publish_clock := t + 2;
     freefall_hysteresis_state := false;
     ground_contact_hysteresis_state := true;
     maybe_landed_hysteresis_state := true;
     landed_hysteresis_state := true;
     ground_effect_hysteresis_state := false;
     max_altitude := zero;
     should_exit := false |}.

(** 10.0f, and a cycle on the ground whose subclass reports it as the
    maximum altitude. *)
Definition ten_metres : float := S754_finite false 10485760 (-20).

Definition ceiling_cycle (t : Z) : cycle :=
  {| actuator_armed_update := None;
     vehicle_acceleration_update := None;
     vehicle_local_position_update := None;
     vehicle_status_update := None;
     now_us := t;
     elapsed_clock := t + 1;
     publish_clock := t + 2;
     freefall_hysteresis_state := false;
     ground_contact_hysteresis_state := true;
     maybe_landed_hysteresis_state := true;
     landed_hysteresis_state := true;
     ground_effect_hysteresis_state := false;
     max_altitude := ten_metres;
     should_exit := false |}.

(** The vehicle in the air: [on_ground_armed] after [takeoff_cycle], with
    the ranging-sensor bit being 1. *)
Definition airborne : machine := run_cycle 1 takeoff_cycle on_ground_armed.

(** The vehicle on the ground after a position report at 950 ms that has
    the ranging-sensor bit set and no valid distance to ground. *)
Definition ranging_seen : machine :=
  run_cycle 1 (position_cycle 950000 false 1) on_ground_armed.

(** The vehicle on the ground after a ground station has written 7 to the
    low half of the stored flight time. *)
Definition param_edited : machine :=
  external_param_set total_flight_time_low 7 on_ground_armed.

(** ** Observing a run *)

(** The calls made during a run of several cycles. *)
Definition calls_made_by_run (DIST_BOTTOM_SENSOR_RANGE : Z)
    (cs : list cycle) (m : machine) : list call :=
  skipn (length (calls m))
        (calls (run_cycles DIST_BOTTOM_SENSOR_RANGE cs m)).

Definition is_schedule_delayed (c : call) : bool :=
  match c with CallScheduleDelayed _ => true | _ => false end.

Definition is_schedule_clear (c : call) : bool :=
  match c with CallScheduleClear => true | _ => false end.

Definition is_register_callback (c : call) : bool :=
  match c with CallRegisterCallback => true | _ => false end.

(** How many calls of a kind a log holds. *)
Definition count_calls (kind : call -> bool) (l : list call) : nat :=
  length (filter kind l).

(** A list of hysteresis factors that starts with 3 when the high
    hysteresis is not active, with 1 when it is, and alternates from
    there. *)
Fixpoint alternating (active : bool) (factors : list Z) : Prop :=
  match factors with
  | [] => True
  | factor :: rest =>
      factor = (if active then 1 else 3) /\ alternating (negb active) rest
  end.

(** The integer member variables and the parameter values hold values of
    their C++ types. *)
Definition in_range (m : machine) : Prop :=
  Word.is_uint64 (_total_flight_time (self m))
  /\ Word.is_uint64 (_takeoff_time (self m))
  /\ Word.is_int32 (_param_total_flight_time_high (self m))
  /\ Word.is_int32 (_param_total_flight_time_low (self m))
  /\ Word.is_int32 (stored_flight_time_high m)
  /\ Word.is_int32 (stored_flight_time_low m).

(** The clock readings of a run never go back: every cycle reads
    [now_us], then the clock of [hrt_elapsed_time], then the time stamp of
    the publication, all after the time [t] and within [uint64_t]. *)
Fixpoint clock_ok (t : Z) (cs : list cycle) : Prop :=
  match cs with
  | [] => True
  | c :: cs' =>
      t <= now_us c <= elapsed_clock c
      /\ elapsed_clock c <= publish_clock c < 2 ^ 64
      /\ clock_ok (publish_clock c) cs'
  end.

(** The last clock reading of such a run. *)
Fixpoint clock_end (t : Z) (cs : list cycle) : Z :=
  match cs with
  | [] => t
  | c :: cs' => clock_end (publish_clock c) cs'
  end.

(** The value a subscription's cache holds after a run: the last message
    delivered, or the cached one when none was. *)
Definition latest {A} (update : cycle -> option A) (cs : list cycle)
    (cached : A) : A :=
  fold_left (fun a c => match update c with Some x => x | None => a end)
            cs cached.

(** More scenarios: a cycle that sees the vehicle leave the ground and
    disarmed at once, and the machine a restart finds after
    [takeoff_cycle] and [disarm_cycle]: member variables zero, the store
    as the flight left it. *)
Definition takeoff_and_disarm_cycle : cycle :=
  {| actuator_armed_update := Some false;
     vehicle_acceleration_update := None;
     vehicle_local_position_update := None;
     vehicle_status_update := None;
     now_us := 1000000;
     elapsed_clock := 1000001;
     publish_clock := 1000002;
     freefall_hysteresis_state := false;
     ground_contact_hysteresis_state := false;
     maybe_landed_hysteresis_state := false;
     landed_hysteresis_state := false;
     ground_effect_hysteresis_state := false;
     max_altitude := zero;
     should_exit := false |}.

Definition restarted : machine :=
  {| self :=
       {| _land_detected :=
            {| timestamp := 0;
               alt_max := zero;
               freefall := false;
               ground_contact := false;
               maybe_landed := false;
               landed := false;
               in_ground_effect := false |};
          _vehicle_local_position :=
            {| dist_bottom_valid := false; dist_bottom_sensor_bitfield := 0 |};
          _vehicle_status := {| status_timestamp := 0 |};
          _acceleration := (zero, zero, zero);
          _armed := false;
          _previous_armed_state := false;
          _dist_bottom_is_observable := false;
          _high_hysteresis_active := false;
          _takeoff_time := 0;
          _total_flight_time := 0;
          _param_total_flight_time_high := 0;
          _param_total_flight_time_low := 0 |};
     stored_flight_time_high := 0;
     stored_flight_time_low := 4000000;
     parameter_update_pending := false;
     calls := [] |}.

(** * Properties *)

(** ** Fixed-width integers *)

Lemma to_uint32_range z : Word.is_uint32 (Word.to_uint32 z).
Proof.
  unfold Word.is_uint32, Word.to_uint32. apply Z.mod_pos_bound. lia.
Qed.

Lemma to_uint64_range z : Word.is_uint64 (Word.to_uint64 z).
Proof.
  unfold Word.is_uint64, Word.to_uint64. apply Z.mod_pos_bound. lia.
Qed.

Lemma to_uint32_small z : Word.is_uint32 z -> Word.to_uint32 z = z.
Proof.
  unfold Word.is_uint32, Word.to_uint32. intros. apply Z.mod_small; lia.
Qed.

Lemma to_uint64_small z : Word.is_uint64 z -> Word.to_uint64 z = z.
Proof.
  unfold Word.is_uint64, Word.to_uint64. intros. apply Z.mod_small; lia.
Qed.

(** Converting to [int32_t] and back to [uint32_t] loses nothing. *)
Lemma to_uint32_to_int32 z :
  Word.to_uint32 (Word.to_int32 z) = Word.to_uint32 z.
Proof.
  unfold Word.to_int32, Word.to_uint32. cbv zeta.
  destruct (Z.ltb_spec (z mod 2 ^ 32) (2 ^ 31)).
  - apply Z.mod_mod. lia.
  - rewrite <- (Z.mod_mod z (2 ^ 32)) at 2 by lia.
    replace (z mod 2 ^ 32 - 2 ^ 32) with (z mod 2 ^ 32 + (-1) * 2 ^ 32)
      by lia.
    apply Z.mod_add. lia.
Qed.

(** The sign extension of the high parameter is shifted out. *)
Lemma shiftl_32_sign_extended z :
  Word.to_uint64 (Z.shiftl (Word.to_uint64 z) 32) =
  Word.to_uint32 z * 2 ^ 32.
Proof.
  unfold Word.to_uint64, Word.to_uint32.
  rewrite Z.shiftl_mul_pow2 by lia.
  pose proof (Z.mod_pos_bound z (2 ^ 32) ltac:(lia)).
  pose proof (Z.div_mod z (2 ^ 64) ltac:(lia)).
  pose proof (Z.div_mod z (2 ^ 32) ltac:(lia)).
  symmetry.
  apply Z.mod_unique with (q := z / 2 ^ 32 - 2 ^ 32 * (z / 2 ^ 64)); lia.
Qed.

Lemma high_half_range t : Word.is_uint64 t -> 0 <= t / 2 ^ 32 < 2 ^ 32.
Proof.
  unfold Word.is_uint64. intros H.
  split; [apply Z.div_pos; lia | apply Z.div_lt_upper_bound; lia].
Qed.

Lemma flight_time_high_div t :
  Word.is_uint64 t -> flight_time_high t = t / 2 ^ 32.
Proof.
  intros H. pose proof (high_half_range t H).
  unfold Word.is_uint64 in H. unfold flight_time_high.
  change 0xffffffff with (Z.ones 32).
  rewrite Z.land_ones, Z.shiftr_div_pow2 by lia.
  unfold Word.to_uint32. rewrite Z.mod_mod by lia. apply Z.mod_small; lia.
Qed.

Lemma flight_time_low_mod t : flight_time_low t = t mod 2 ^ 32.
Proof.
  unfold flight_time_low. change 0xffffffff with (Z.ones 32).
  rewrite Z.land_ones by lia. unfold Word.to_uint32. apply Z.mod_mod. lia.
Qed.

(** The two halves of lines 160 and 165 are 32-bit values, and the
    accumulator is the first times 2^32 plus the second. *)
Lemma flight_time_halves t :
  Word.is_uint64 t ->
  Word.is_uint32 (flight_time_high t)
  /\ Word.is_uint32 (flight_time_low t)
  /\ flight_time_high t * 2 ^ 32 + flight_time_low t = t.
Proof.
  intros H. pose proof (high_half_range t H) as Hh.
  rewrite flight_time_high_div, flight_time_low_mod by trivial.
  unfold Word.is_uint64 in H. unfold Word.is_uint32.
  split; [ exact Hh | ].
  split; [ apply Z.mod_pos_bound; lia | ].
  rewrite (Z.div_mod t (2 ^ 32)) at 3 by lia. lia.
Qed.

(** Two halves that do not overlap are joined by [|] as by [+]. *)
Lemma land_halves h l : 0 <= l < 2 ^ 32 -> Z.land (Z.shiftl h 32) l = 0.
Proof.
  intros Hl. apply Z.bits_inj'; intros n Hn.
  rewrite Z.land_spec, Z.bits_0.
  destruct (Z.ltb_spec n 32).
  - rewrite Z.shiftl_spec_low by lia. reflexivity.
  - replace (Z.testbit l n) with false; [ apply andb_false_r | ].
    symmetry. destruct (Z.eq_dec l 0) as [-> | Hz]; [ apply Z.bits_0 | ].
    apply Z.bits_above_log2; [ lia | ].
    apply Z.lt_le_trans with 32; [ | lia ].
    apply Z.log2_lt_pow2; lia.
Qed.

Lemma lor_halves h l :
  0 <= l < 2 ^ 32 -> Z.lor (h * 2 ^ 32) l = h * 2 ^ 32 + l.
Proof.
  intros Hl.
  rewrite <- Z.shiftl_mul_pow2 by lia.
  pose proof (land_halves h l Hl) as Hd.
  rewrite <- Z.lxor_lor by exact Hd.
  symmetry. apply Z.add_nocarry_lxor. exact Hd.
Qed.

(** The concatenation of lines 78-79, on two 32-bit halves that went
    through the [int32_t] parameters. *)
Lemma total_flight_time_of_halves h l :
  Word.is_uint32 h -> Word.is_uint32 l ->
  total_flight_time_of_params (Word.to_int32 h) (Word.to_int32 l) =
  h * 2 ^ 32 + l.
Proof.
  intros Hh Hl. unfold total_flight_time_of_params.
  rewrite shiftl_32_sign_extended, !to_uint32_to_int32.
  rewrite !to_uint32_small by trivial.
  apply lor_halves, Hl.
Qed.

(** ** The cycle, phase by phase *)

Ltac open_machine m :=
  destruct m as [[? ? ? ? ? ? ? ? ? ? ? ?] ? ? ? ?].

(** Projections of updated records, and nothing of the arithmetic. *)
Ltac project :=
  cbv [fst snd
       with_self with_calls with_stored_flight_time_high
       with_stored_flight_time_low with_parameter_update_pending
       with_land_detected with_vehicle_local_position with_vehicle_status
       with_acceleration with_armed with_previous_armed_state
       with_dist_bottom_is_observable with_high_hysteresis_active
       with_takeoff_time with_total_flight_time
       with_param_total_flight_time_high with_param_total_flight_time_low
       self calls stored_flight_time_high stored_flight_time_low
       parameter_update_pending
       _land_detected _vehicle_local_position _vehicle_status _acceleration
       _armed _previous_armed_state _dist_bottom_is_observable
       _high_hysteresis_active _takeoff_time _total_flight_time
       _param_total_flight_time_high _param_total_flight_time_low].

(** Unfold the monad. *)
Ltac unfold_cycle :=
  cbv [exec bind ret when gets assign emit
       ScheduleDelayed ScheduleClear registerCallback exit_and_cleanup
       perf_begin perf_end _update_params _update_topics
       _set_hysteresis_factor
       parameter_update_sub_updated parameter_update_sub_copy updateParams
       param_total_flight_time_high_set param_total_flight_time_low_set
       param_total_flight_time_high_commit_no_notification
       param_total_flight_time_low_commit_no_notification
       publish_land_detected];
  project.

(** Unfold the decisions of the cycle. *)
Ltac unfold_decisions :=
  cbv [refresh_due total_flight_time_after_refresh armed_after
       local_position_after published takeoff_recorded
       takeoff_time_after_publish disarm_processed
       total_flight_time_after_cycle dist_bottom_is_observable_after
       high_hysteresis_active_after calls_of_cycle];
  project.

Section Cycle.

Variable DIST_BOTTOM_SENSOR_RANGE : Z.

Lemma exec_seq {A B} (p : M A) (k : M B) (m : machine) :
  exec (bind p (fun _ => k)) m = exec k (exec p m).
Proof. unfold exec, bind. destruct (p m). reflexivity. Qed.

Lemma exec_emit e m : exec (emit e) m = with_calls (calls m ++ [e]) m.
Proof. reflexivity. Qed.

Lemma exec_refresh_parameters m :
  exec refresh_parameters m =
  let due := refresh_due m in
  let d := self m in
  with_self
    (with_total_flight_time (total_flight_time_after_refresh m)
       (with_param_total_flight_time_low
          (if due then stored_flight_time_low m
           else _param_total_flight_time_low d)
          (with_param_total_flight_time_high
             (if due then stored_flight_time_high m
              else _param_total_flight_time_high d) d)))
    (with_calls
       (calls m ++
        if due then [CallUpdateParams; CallUpdateParamsOfSubclass] else [])
       (with_parameter_update_pending
          (if due then false else parameter_update_pending m) m)).
Proof.
  open_machine m.
  unfold refresh_parameters, total_flight_time_after_refresh, refresh_due.
  unfold_cycle.
  destruct (_ || _).
  - unfold total_flight_time_of_params. rewrite <- app_assoc. reflexivity.
  - rewrite app_nil_r. reflexivity.
Qed.

Lemma exec_update_subscriptions c m :
  exec (update_subscriptions c) m =
  let d := self m in
  with_self
    (with_vehicle_status
       (match vehicle_status_update c with
        | Some status => status
        | None => _vehicle_status d
        end)
       (with_vehicle_local_position (local_position_after c m)
          (with_acceleration
             (match vehicle_acceleration_update c with
              | Some xyz => xyz
              | None => _acceleration d
              end)
             (with_armed (armed_after c m) d))))
    (with_calls (calls m ++ [CallUpdateTopics]) m).
Proof.
  open_machine m.
  unfold update_subscriptions, local_position_after, armed_after.
  destruct (actuator_armed_update c), (vehicle_acceleration_update c),
    (vehicle_local_position_update c), (vehicle_status_update c);
    reflexivity.
Qed.

Lemma exec_update_dist_bottom_observability m :
  exec (update_dist_bottom_observability DIST_BOTTOM_SENSOR_RANGE) m =
  let d := self m in
  let lpos := _vehicle_local_position d in
  with_self
    (with_high_hysteresis_active
       (if _dist_bottom_is_observable d
        then negb (dist_bottom_valid lpos)
        else _high_hysteresis_active d)
       (with_dist_bottom_is_observable
          (_dist_bottom_is_observable d
           || negb (Z.land (dist_bottom_sensor_bitfield lpos)
                           DIST_BOTTOM_SENSOR_RANGE =? 0))
          d))
    (with_calls
       (calls m ++
        hysteresis_factor_calls (_dist_bottom_is_observable d)
          (_high_hysteresis_active d) (dist_bottom_valid lpos))
       m).
Proof.
  open_machine m.
  match goal with p : vehicle_local_position_s |- _ => destruct p end.
  unfold update_dist_bottom_observability, hysteresis_factor_calls.
  unfold_cycle. cbv [dist_bottom_valid dist_bottom_sensor_bitfield].
  repeat match goal with b : bool |- _ => destruct b end;
    cbv [negb andb orb]; rewrite ?app_nil_r; reflexivity.
Qed.

Lemma exec_update_land_detected c m :
  exec (update_land_detected c) m =
  with_self
    (with_land_detected
       (if published c m then new_land_detected c
        else _land_detected (self m))
       (with_takeoff_time (takeoff_time_after_publish c m) (self m)))
    (with_calls
       (calls m ++
        if published c m then [CallPublish (new_land_detected c)] else [])
       m).
Proof.
  open_machine m.
  unfold update_land_detected, takeoff_time_after_publish, takeoff_recorded,
    published, new_land_detected.
  unfold_cycle.
  destruct (publish_due _ _); cbv [andb].
  - match goal with |- context [if ?b then _ else _] => destruct b end;
      reflexivity.
  - rewrite app_nil_r. reflexivity.
Qed.

Lemma exec_update_flight_time c m :
  exec (update_flight_time c) m =
  let d := self m in
  let due := negb (_takeoff_time d =? 0) && negb (_armed d)
             && _previous_armed_state d in
  let total :=
    if due
    then Word.to_uint64
           (_total_flight_time d
            + Word.to_uint64 (now_us c - _takeoff_time d))
    else _total_flight_time d in
  with_self
    (with_previous_armed_state (_armed d)
       (with_param_total_flight_time_low
          (if due then param_low_of total
           else _param_total_flight_time_low d)
          (with_param_total_flight_time_high
             (if due then param_high_of total
              else _param_total_flight_time_high d)
             (with_takeoff_time (if due then 0 else _takeoff_time d)
                (with_total_flight_time total d)))))
    (with_stored_flight_time_low
       (if due then param_low_of total else stored_flight_time_low m)
       (with_stored_flight_time_high
          (if due then param_high_of total else stored_flight_time_high m)
          (with_calls
             (calls m ++
              if due
              then [CallCommitNoNotification total_flight_time_high
                      (param_high_of total);
                    CallCommitNoNotification total_flight_time_low
                      (param_low_of total)]
              else [])
             m))).
Proof.
  open_machine m.
  unfold update_flight_time, param_high_of, param_low_of.
  unfold_cycle.
  match goal with |- context [if ?b then _ else _] => destruct b end.
  - rewrite <- app_assoc. reflexivity.
  - rewrite app_nil_r. reflexivity.
Qed.

Lemma exec_exit b m :
  exec (when b (ScheduleClear ;; exit_and_cleanup)) m =
  with_calls
    (calls m ++ if b then [CallScheduleClear; CallExitAndCleanup] else [])
    m.
Proof.
  open_machine m. destruct b; unfold_cycle.
  - rewrite <- app_assoc. reflexivity.
  - rewrite app_nil_r. reflexivity.
Qed.

(** One cycle, as a function of the machine at its start. *)
Lemma Run_spec c m :
  exec (Run DIST_BOTTOM_SENSOR_RANGE c) m =
  let d := self m in
  let disarm := disarm_processed c m in
  let total := total_flight_time_after_cycle c m in
  {| self :=
       {| _land_detected :=
            if published c m then new_land_detected c else _land_detected d;
          _vehicle_local_position := local_position_after c m;
          _vehicle_status :=
            match vehicle_status_update c with
            | Some status => status
            | None => _vehicle_status d
            end;
          _acceleration :=
            match vehicle_acceleration_update c with
            | Some xyz => xyz
            | None => _acceleration d
            end;
          _armed := armed_after c m;
          _previous_armed_state := armed_after c m;
          _dist_bottom_is_observable :=
            dist_bottom_is_observable_after DIST_BOTTOM_SENSOR_RANGE c m;
          _high_hysteresis_active := high_hysteresis_active_after c m;
          _takeoff_time :=
            if disarm then 0 else takeoff_time_after_publish c m;
          _total_flight_time := total;
          _param_total_flight_time_high :=
            if disarm then param_high_of total
            else if refresh_due m then stored_flight_time_high m
            else _param_total_flight_time_high d;
          _param_total_flight_time_low :=
            if disarm then param_low_of total
            else if refresh_due m then stored_flight_time_low m
            else _param_total_flight_time_low d |};
     stored_flight_time_high :=
       if disarm then param_high_of total else stored_flight_time_high m;
     stored_flight_time_low :=
       if disarm then param_low_of total else stored_flight_time_low m;
     parameter_update_pending :=
       if refresh_due m then false else parameter_update_pending m;
     calls := calls m ++ calls_of_cycle c m |}.
Proof.
  open_machine m.
  unfold Run. rewrite !exec_seq, exec_exit.
  unfold ScheduleDelayed, perf_begin, perf_end. rewrite !exec_emit.
  unfold_decisions.
  rewrite exec_refresh_parameters. unfold_decisions.
  rewrite exec_update_subscriptions. unfold_decisions.
  rewrite exec_update_dist_bottom_observability. unfold_decisions.
  rewrite exec_update_land_detected. unfold_decisions.
  rewrite exec_update_flight_time. unfold_decisions.
  f_equal.
  repeat rewrite <- app_assoc. reflexivity.
Qed.

(** *** The fields after one cycle *)

Lemma Run_calls c m :
  calls (run_cycle DIST_BOTTOM_SENSOR_RANGE c m) =
  calls m ++ calls_of_cycle c m.
Proof. unfold run_cycle. rewrite Run_spec. reflexivity. Qed.

Lemma calls_made_spec c m :
  calls_made DIST_BOTTOM_SENSOR_RANGE c m = calls_of_cycle c m.
Proof.
  unfold calls_made. rewrite Run_calls, skipn_app, skipn_all, Nat.sub_diag.
  reflexivity.
Qed.

Lemma Run_land_detected c m :
  _land_detected (self (run_cycle DIST_BOTTOM_SENSOR_RANGE c m)) =
  if published c m then new_land_detected c else _land_detected (self m).
Proof. unfold run_cycle. rewrite Run_spec. reflexivity. Qed.

Lemma Run_armed c m :
  _armed (self (run_cycle DIST_BOTTOM_SENSOR_RANGE c m)) = armed_after c m.
Proof. unfold run_cycle. rewrite Run_spec. reflexivity. Qed.

Lemma Run_previous_armed_state c m :
  _previous_armed_state (self (run_cycle DIST_BOTTOM_SENSOR_RANGE c m)) =
  armed_after c m.
Proof. unfold run_cycle. rewrite Run_spec. reflexivity. Qed.

Lemma Run_dist_bottom_is_observable c m :
  _dist_bottom_is_observable (self (run_cycle DIST_BOTTOM_SENSOR_RANGE c m)) =
  dist_bottom_is_observable_after DIST_BOTTOM_SENSOR_RANGE c m.
Proof. unfold run_cycle. rewrite Run_spec. reflexivity. Qed.

Lemma Run_high_hysteresis_active c m :
  _high_hysteresis_active (self (run_cycle DIST_BOTTOM_SENSOR_RANGE c m)) =
  high_hysteresis_active_after c m.
Proof. unfold run_cycle. rewrite Run_spec. reflexivity. Qed.

Lemma Run_takeoff_time c m :
  _takeoff_time (self (run_cycle DIST_BOTTOM_SENSOR_RANGE c m)) =
  if disarm_processed c m then 0 else takeoff_time_after_publish c m.
Proof. unfold run_cycle. rewrite Run_spec. reflexivity. Qed.

Lemma Run_total_flight_time c m :
  _total_flight_time (self (run_cycle DIST_BOTTOM_SENSOR_RANGE c m)) =
  total_flight_time_after_cycle c m.
Proof. unfold run_cycle. rewrite Run_spec. reflexivity. Qed.

Lemma Run_stored_flight_time_high c m :
  stored_flight_time_high (run_cycle DIST_BOTTOM_SENSOR_RANGE c m) =
  if disarm_processed c m
  then param_high_of (total_flight_time_after_cycle c m)
  else stored_flight_time_high m.
Proof. unfold run_cycle. rewrite Run_spec. reflexivity. Qed.

Lemma Run_stored_flight_time_low c m :
  stored_flight_time_low (run_cycle DIST_BOTTOM_SENSOR_RANGE c m) =
  if disarm_processed c m
  then param_low_of (total_flight_time_after_cycle c m)
  else stored_flight_time_low m.
Proof. unfold run_cycle. rewrite Run_spec. reflexivity. Qed.

Lemma Run_parameter_update_pending c m :
  parameter_update_pending (run_cycle DIST_BOTTOM_SENSOR_RANGE c m) =
  if refresh_due m then false else parameter_update_pending m.
Proof. unfold run_cycle. rewrite Run_spec. reflexivity. Qed.

(** *** Decisions, read as propositions *)

Lemma refresh_due_iff m :
  refresh_due m = true <->
  parameter_update_pending m = true
  \/ timestamp (_land_detected (self m)) = 0.
Proof.
  unfold refresh_due. rewrite orb_true_iff, Z.eqb_eq. reflexivity.
Qed.

Lemma takeoff_recorded_iff c m :
  takeoff_recorded c m = true <->
  published c m = true
  /\ landed_hysteresis_state c = false
  /\ landed (_land_detected (self m)) = true
  /\ _takeoff_time (self m) = 0.
Proof.
  unfold takeoff_recorded.
  rewrite !andb_true_iff, negb_true_iff, Z.eqb_eq. tauto.
Qed.

Lemma disarm_processed_iff c m :
  disarm_processed c m = true <->
  takeoff_time_after_publish c m <> 0
  /\ armed_after c m = false
  /\ _previous_armed_state (self m) = true.
Proof.
  unfold disarm_processed.
  rewrite !andb_true_iff, !negb_true_iff, Z.eqb_neq. tauto.
Qed.

(** The decisions are read off the code: the takeoff time that line 156
    tests is the one the publish step leaves. *)
Lemma update_land_detected_takeoff_time c m :
  _takeoff_time (self (exec (update_land_detected c) m)) =
  takeoff_time_after_publish c m.
Proof. rewrite exec_update_land_detected. reflexivity. Qed.

(** A tracked takeoff is not re-recorded by the publish step. *)
Lemma takeoff_time_after_publish_tracked c m :
  _takeoff_time (self m) <> 0 ->
  takeoff_time_after_publish c m = _takeoff_time (self m).
Proof.
  intros H. unfold takeoff_time_after_publish.
  destruct (takeoff_recorded c m) eqn:E; trivial.
  apply takeoff_recorded_iff in E. tauto.
Qed.

Lemma total_flight_time_after_refresh_kept m :
  refresh_due m = false \/ params_in_sync m ->
  total_flight_time_after_refresh m = _total_flight_time (self m).
Proof.
  unfold total_flight_time_after_refresh, params_in_sync.
  destruct (refresh_due m); intros [H | H]; congruence.
Qed.

(** *** The log of a cycle, by kind of call *)

Lemma commits_app l1 l2 : commits (l1 ++ l2) = commits l1 ++ commits l2.
Proof.
  induction l1 as [| [] l1 IH]; cbn [commits app]; rewrite ?IH; reflexivity.
Qed.

Lemma hysteresis_factors_app l1 l2 :
  hysteresis_factors (l1 ++ l2) =
  hysteresis_factors l1 ++ hysteresis_factors l2.
Proof.
  induction l1 as [| [] l1 IH]; cbn [hysteresis_factors app]; rewrite ?IH;
    reflexivity.
Qed.

Lemma publications_app l1 l2 :
  publications (l1 ++ l2) = publications l1 ++ publications l2.
Proof.
  induction l1 as [| [] l1 IH]; cbn [publications app]; rewrite ?IH;
    reflexivity.
Qed.

Lemma commits_of_cycle c m :
  commits (calls_of_cycle c m) =
  if disarm_processed c m
  then [(total_flight_time_high,
         param_high_of (total_flight_time_after_cycle c m));
        (total_flight_time_low,
         param_low_of (total_flight_time_after_cycle c m))]
  else [].
Proof.
  unfold calls_of_cycle, hysteresis_factor_calls.
  rewrite !commits_app.
  destruct (refresh_due m), (_dist_bottom_is_observable (self m)),
    (_high_hysteresis_active (self m)),
    (dist_bottom_valid (local_position_after c m)),
    (published c m), (disarm_processed c m), (should_exit c);
    reflexivity.
Qed.

Lemma hysteresis_factors_of_cycle c m :
  hysteresis_factors (calls_of_cycle c m) =
  hysteresis_factors
    (hysteresis_factor_calls
       (_dist_bottom_is_observable (self m))
       (_high_hysteresis_active (self m))
       (dist_bottom_valid (local_position_after c m))).
Proof.
  unfold calls_of_cycle. rewrite !hysteresis_factors_app.
  destruct (refresh_due m), (published c m), (disarm_processed c m),
    (should_exit c); cbn [hysteresis_factors app];
    rewrite ?app_nil_r; reflexivity.
Qed.

Lemma publications_of_cycle c m :
  publications (calls_of_cycle c m) =
  if published c m then [new_land_detected c] else [].
Proof.
  unfold calls_of_cycle, hysteresis_factor_calls.
  rewrite !publications_app.
  destruct (refresh_due m), (_dist_bottom_is_observable (self m)),
    (_high_hysteresis_active (self m)),
    (dist_bottom_valid (local_position_after c m)),
    (published c m), (disarm_processed c m), (should_exit c);
    reflexivity.
Qed.

(** *** The parameter-refresh step on its own *)

Lemma refresh_parameters_total_flight_time m :
  _total_flight_time (self (exec refresh_parameters m)) =
  total_flight_time_after_refresh m.
Proof. rewrite exec_refresh_parameters. reflexivity. Qed.

Lemma refresh_parameters_skipped m :
  refresh_due m = false -> exec refresh_parameters m = m.
Proof.
  intros H. rewrite exec_refresh_parameters.
  unfold total_flight_time_after_refresh. cbv zeta. rewrite H.
  open_machine m. project. rewrite app_nil_r. reflexivity.
Qed.

Lemma stored_halves_unsigned t :
  Word.is_uint64 t ->
  Word.to_uint32 (param_high_of t) = t / 2 ^ 32
  /\ Word.to_uint32 (param_low_of t) = t mod 2 ^ 32.
Proof.
  intros H. unfold param_high_of, param_low_of.
  rewrite !to_uint32_to_int32, flight_time_high_div, flight_time_low_mod
    by trivial.
  pose proof (high_half_range t H).
  unfold Word.to_uint32. rewrite Z.mod_mod by lia.
  split; [apply Z.mod_small; lia | reflexivity].
Qed.

(** ** The flight-time accumulator *)

(** C1.  On a cycle that finds the vehicle disarmed after it was armed on
    the previous cycle, with a takeoff tracked when line 156 is reached,
    [_total_flight_time] grows by [now_us - _takeoff_time] (in [uint64_t]
    arithmetic, on the value the parameter-refresh step of the cycle
    leaves), [_takeoff_time] is cleared, and the high and low 32 bits of
    the new total are committed to the parameter store, high half first.
    A takeoff tracked at the start of the cycle is the one tracked at line
    156; the accumulator is the one of the start of the cycle unless the
    refresh branch reloads a different value; and without wrap-around the
    sum is the sum of integers. *)
Theorem disarm_adds_flight_time c m :
  _previous_armed_state (self m) = true ->
  _armed (self (run_cycle DIST_BOTTOM_SENSOR_RANGE c m)) = false ->
  takeoff_time_after_publish c m <> 0 ->
  let m' := run_cycle DIST_BOTTOM_SENSOR_RANGE c m in
  let takeoff := takeoff_time_after_publish c m in
  let before := _total_flight_time (self (exec refresh_parameters m)) in
  let after := _total_flight_time (self m') in
  after = Word.to_uint64 (before + Word.to_uint64 (now_us c - takeoff))
  /\ _takeoff_time (self m') = 0
  /\ stored_flight_time_high m' = Word.to_int32 (flight_time_high after)
  /\ stored_flight_time_low m' = Word.to_int32 (flight_time_low after)
  /\ Word.to_uint32 (stored_flight_time_high m') = after / 2 ^ 32
  /\ Word.to_uint32 (stored_flight_time_low m') = after mod 2 ^ 32
  /\ commits (calls_made DIST_BOTTOM_SENSOR_RANGE c m) =
       [(total_flight_time_high, stored_flight_time_high m');
        (total_flight_time_low, stored_flight_time_low m')]
  /\ (_takeoff_time (self m) <> 0 -> takeoff = _takeoff_time (self m))
  /\ (refresh_due m = false \/ params_in_sync m ->
       before = _total_flight_time (self m))
  /\ (0 <= before -> takeoff <= now_us c ->
       before + (now_us c - takeoff) < 2 ^ 64 ->
       after = before + (now_us c - takeoff)).
Proof.
  intros Hprev Harmed Htracked. rewrite Run_armed in Harmed.
  assert (Hd : disarm_processed c m = true)
    by (apply disarm_processed_iff; auto).
  cbv zeta.
  rewrite Run_total_flight_time, Run_takeoff_time,
    Run_stored_flight_time_high, Run_stored_flight_time_low,
    calls_made_spec, commits_of_cycle, refresh_parameters_total_flight_time.
  unfold total_flight_time_after_cycle. rewrite Hd.
  set (after := Word.to_uint64 _).
  destruct (stored_halves_unsigned after (to_uint64_range _)) as [Hh Hl].
  repeat split; trivial.
  - apply takeoff_time_after_publish_tracked.
  - apply total_flight_time_after_refresh_kept.
  - intros H0 Hle Hlt. subst after.
    rewrite (to_uint64_small (now_us c - _)) by (unfold Word.is_uint64; lia).
    apply to_uint64_small. unfold Word.is_uint64. lia.
Qed.

(** C2.  Every [uint64_t] value of the accumulator is recovered exactly
    from the two parameter values it is split into: the split of lines
    160-168, then the concatenation of lines 78-79. *)
Theorem flight_time_round_trip t :
  Word.is_uint64 t ->
  total_flight_time_of_params (Word.to_int32 (flight_time_high t))
                              (Word.to_int32 (flight_time_low t)) = t.
Proof.
  intros H.
  destruct (flight_time_halves t H) as (Hhigh & Hlow & Hsum).
  rewrite total_flight_time_of_halves by assumption.
  exact Hsum.
Qed.

(** What a disarming cycle stores, the next parameter refresh reloads. *)
Lemma stored_flight_time_is_reloaded c m :
  disarm_processed c m = true ->
  params_in_sync (run_cycle DIST_BOTTOM_SENSOR_RANGE c m).
Proof.
  intros Hd. unfold params_in_sync.
  rewrite Run_total_flight_time, Run_stored_flight_time_high,
    Run_stored_flight_time_low, Hd.
  unfold param_high_of, param_low_of.
  set (total := total_flight_time_after_cycle c m).
  assert (H : Word.is_uint64 total).
  { subst total. unfold total_flight_time_after_cycle. rewrite Hd.
    apply to_uint64_range. }
  destruct (flight_time_halves total H) as (Hhigh & Hlow & Hsum).
  rewrite total_flight_time_of_halves by assumption.
  exact Hsum.
Qed.

(** The stored halves agree with the accumulator after every cycle that
    starts with them agreeing. *)
Lemma params_in_sync_kept cs : forall m,
  params_in_sync m ->
  params_in_sync (run_cycles DIST_BOTTOM_SENSOR_RANGE cs m).
Proof.
  induction cs as [| c cs IH]; intros m Hs; [ exact Hs | ].
  cbn [run_cycles]. apply IH.
  destruct (disarm_processed c m) eqn:Hd.
  - apply stored_flight_time_is_reloaded, Hd.
  - pose proof (total_flight_time_after_refresh_kept m (or_intror Hs))
      as Hkept.
    unfold params_in_sync in *.
    rewrite Run_total_flight_time, Run_stored_flight_time_high,
      Run_stored_flight_time_low, Hd.
    unfold total_flight_time_after_cycle. rewrite Hd, Hkept. exact Hs.
Qed.

(** C10, amended.  On a cycle that finds the vehicle disarmed after it was
    armed, with no takeoff tracked when line 156 is reached, the two stored
    halves and the two parameter values keep what they held after the
    parameter-refresh step, nothing is committed, and the accumulator keeps
    the value that step left: its value of the start of the cycle unless
    the refresh branch reloaded a different one.  In any cycle, the store
    is written only when such a disarm is processed with a takeoff tracked,
    and the accumulator changes only then or in the refresh branch. *)
Theorem flight_time_kept_without_takeoff c m :
  let m' := run_cycle DIST_BOTTOM_SENSOR_RANGE c m in
  let disarm_with_takeoff :=
    _previous_armed_state (self m) = true
    /\ _armed (self m') = false
    /\ takeoff_time_after_publish c m <> 0 in
  (_previous_armed_state (self m) = true ->
   _armed (self m') = false ->
   takeoff_time_after_publish c m = 0 ->
   stored_flight_time_high m' = stored_flight_time_high m
   /\ stored_flight_time_low m' = stored_flight_time_low m
   /\ commits (calls_made DIST_BOTTOM_SENSOR_RANGE c m) = []
   /\ _total_flight_time (self m') =
        _total_flight_time (self (exec refresh_parameters m))
   /\ (refresh_due m = false \/ params_in_sync m ->
        _total_flight_time (self m') = _total_flight_time (self m)))
  /\ (stored_flight_time_high m' <> stored_flight_time_high m
       \/ stored_flight_time_low m' <> stored_flight_time_low m
       \/ commits (calls_made DIST_BOTTOM_SENSOR_RANGE c m) <> [] ->
       disarm_with_takeoff)
  /\ (_total_flight_time (self m') <> _total_flight_time (self m) ->
       refresh_due m = true \/ disarm_with_takeoff).
Proof.
  cbv zeta.
  rewrite Run_total_flight_time, Run_armed, Run_stored_flight_time_high,
    Run_stored_flight_time_low, calls_made_spec, commits_of_cycle,
    refresh_parameters_total_flight_time.
  unfold total_flight_time_after_cycle.
  destruct (disarm_processed c m) eqn:Hd.
  - apply disarm_processed_iff in Hd. destruct Hd as (Ht & Ha & Hp).
    repeat split; auto; tauto.
  - assert (Hn : ~ (takeoff_time_after_publish c m <> 0
                    /\ armed_after c m = false
                    /\ _previous_armed_state (self m) = true)).
    { rewrite <- disarm_processed_iff. congruence. }
    repeat split; trivial.
    + apply total_flight_time_after_refresh_kept.
    + tauto.
    + tauto.
    + tauto.
    + intros Hne. left.
      destruct (refresh_due m) eqn:Hr; trivial.
      rewrite total_flight_time_after_refresh_kept in Hne by auto.
      congruence.
Qed.

(** ** Parameter refresh *)

Lemma refresh_logged_iff c m :
  In CallUpdateParams (calls_of_cycle c m) <-> refresh_due m = true.
Proof.
  unfold calls_of_cycle, hysteresis_factor_calls.
  repeat rewrite in_app_iff.
  destruct (refresh_due m), (_dist_bottom_is_observable (self m)),
    (_high_hysteresis_active (self m)),
    (dist_bottom_valid (local_position_after c m)),
    (published c m), (disarm_processed c m), (should_exit c);
    cbn [In negb andb]; intuition discriminate.
Qed.

(** C8.  The refresh branch of lines 71-80 runs (and rebuilds the
    accumulator from the two stored halves) exactly on a cycle that starts
    with a parameter update pending or with a zero published time stamp;
    on every other cycle that step leaves the whole machine as it is.  No
    cycle leaves a parameter update pending, the cycles that commit the two
    halves included, so the cycle that follows does not refresh unless its
    time stamp is still zero or a notification arrives from outside. *)
Theorem parameter_refresh_only_on_update c m :
  let m' := run_cycle DIST_BOTTOM_SENSOR_RANGE c m in
  let first_or_updated :=
    parameter_update_pending m = true
    \/ timestamp (_land_detected (self m)) = 0 in
  (In CallUpdateParams (calls_made DIST_BOTTOM_SENSOR_RANGE c m)
   <-> first_or_updated)
  /\ (first_or_updated ->
       _total_flight_time (self (exec refresh_parameters m)) =
       total_flight_time_of_params (stored_flight_time_high m)
                                   (stored_flight_time_low m))
  /\ (~ first_or_updated -> exec refresh_parameters m = m)
  /\ parameter_update_pending m' = false
  /\ (forall c2,
        timestamp (_land_detected (self m')) <> 0 ->
        ~ In CallUpdateParams (calls_made DIST_BOTTOM_SENSOR_RANGE c2 m')
        /\ exec refresh_parameters m' = m').
Proof.
  cbv zeta.
  assert (Hp : parameter_update_pending
                 (run_cycle DIST_BOTTOM_SENSOR_RANGE c m) = false).
  { rewrite Run_parameter_update_pending.
    unfold refresh_due.
    destruct (parameter_update_pending m), (_ =? 0); reflexivity. }
  rewrite calls_made_spec, refresh_logged_iff, <- refresh_due_iff.
  split; [reflexivity | ].
  split.
  { intros Hr. rewrite refresh_parameters_total_flight_time.
    unfold total_flight_time_after_refresh. rewrite Hr. reflexivity. }
  split.
  { intros Hr. apply refresh_parameters_skipped.
    destruct (refresh_due m); congruence. }
  split; [exact Hp | ].
  intros c2 Hts.
  assert (Hr : refresh_due (run_cycle DIST_BOTTOM_SENSOR_RANGE c m) = false).
  { destruct (refresh_due _) eqn:Hr; trivial.
    apply refresh_due_iff in Hr. rewrite Hp in Hr.
    destruct Hr as [Hc | Hc]; [discriminate | contradiction]. }
  split.
  - rewrite calls_made_spec, refresh_logged_iff. congruence.
  - apply refresh_parameters_skipped, Hr.
Qed.

(** ** Scheduling *)

(** C9.  Every cycle begins by scheduling the next one 50 ms ahead, and
    does so once, whatever else the cycle does; [ScheduleClear] is called
    only by the check of [should_exit()] that ends the cycle, and exactly
    when it reports a shutdown request. *)
Theorem schedule_rearmed_every_cycle c m :
  (exists middle,
      calls_made DIST_BOTTOM_SENSOR_RANGE c m =
      CallScheduleDelayed _50_ms :: middle
      ++ (if should_exit c
          then [CallScheduleClear; CallExitAndCleanup] else [])
      /\ ~ In CallScheduleClear middle
      /\ forall delay_us, ~ In (CallScheduleDelayed delay_us) middle)
  /\ (In CallScheduleClear (calls_made DIST_BOTTOM_SENSOR_RANGE c m)
       <-> should_exit c = true).
Proof.
  rewrite calls_made_spec. unfold calls_of_cycle, hysteresis_factor_calls.
  split.
  - exists
      ([CallPerfBegin]
       ++ (if refresh_due m
           then [CallUpdateParams; CallUpdateParamsOfSubclass] else [])
       ++ [CallUpdateTopics]
       ++ hysteresis_factor_calls
            (_dist_bottom_is_observable (self m))
            (_high_hysteresis_active (self m))
            (dist_bottom_valid (local_position_after c m))
       ++ (if published c m then [CallPublish (new_land_detected c)] else [])
       ++ (if disarm_processed c m
           then [CallCommitNoNotification total_flight_time_high
                   (param_high_of (total_flight_time_after_cycle c m));
                 CallCommitNoNotification total_flight_time_low
                   (param_low_of (total_flight_time_after_cycle c m))]
           else [])
       ++ [CallPerfEnd]).
    unfold hysteresis_factor_calls.
    split.
    + repeat (progress cbn [app] || rewrite <- app_assoc). reflexivity.
    + split; [ | intros delay_us ];
        repeat rewrite in_app_iff;
        destruct (refresh_due m), (_dist_bottom_is_observable (self m)),
          (_high_hysteresis_active (self m)),
          (dist_bottom_valid (local_position_after c m)),
          (published c m), (disarm_processed c m);
        cbn [In negb andb]; intuition discriminate.
  - repeat rewrite in_app_iff.
    destruct (refresh_due m), (_dist_bottom_is_observable (self m)),
      (_high_hysteresis_active (self m)),
      (dist_bottom_valid (local_position_after c m)),
      (published c m), (disarm_processed c m), (should_exit c);
      cbn [In negb andb]; intuition discriminate.
Qed.

(** ** Publication *)

Lemma bool_differs (a b : bool) : negb (Bool.eqb a b) = true <-> a <> b.
Proof. destruct a, b; cbn; intuition congruence. Qed.

Lemma published_iff c m :
  let last := _land_detected (self m) in
  published c m = true <->
  _1_s <= hrt_elapsed_time (elapsed_clock c) (timestamp last)
  \/ (landed last <> landed_hysteresis_state c
      \/ freefall last <> freefall_hysteresis_state c
      \/ maybe_landed last <> maybe_landed_hysteresis_state c
      \/ ground_contact last <> ground_contact_hysteresis_state c
      \/ in_ground_effect last <> ground_effect_hysteresis_state c
      \/ gt (fabsf (sub (alt_max last) (reportable_alt_max c))) FLT_EPSILON
         = true).
Proof.
  unfold published, publish_due, result_changed. cbv zeta.
  rewrite !orb_true_iff, !bool_differs, Z.leb_le. tauto.
Qed.

(** C3.  A cycle publishes a snapshot exactly when one second or more has
    passed since the time stamp of the last published one, or one of the
    six reported fields differs from it ([alt_max] by more than
    [FLT_EPSILON]).  What is published is the snapshot of this cycle, and
    it becomes the last published one.  So a change of a field is published
    in the cycle that sees it, and a snapshot published with no field
    changed comes a second or more after the previous one. *)
Theorem publish_iff_due_or_changed c m :
  let last := _land_detected (self m) in
  let m' := run_cycle DIST_BOTTOM_SENSOR_RANGE c m in
  let sent := publications (calls_made DIST_BOTTOM_SENSOR_RANGE c m) in
  let due :=
    _1_s <= hrt_elapsed_time (elapsed_clock c) (timestamp last) in
  let changed :=
    landed last <> landed_hysteresis_state c
    \/ freefall last <> freefall_hysteresis_state c
    \/ maybe_landed last <> maybe_landed_hysteresis_state c
    \/ ground_contact last <> ground_contact_hysteresis_state c
    \/ in_ground_effect last <> ground_effect_hysteresis_state c
    \/ gt (fabsf (sub (alt_max last) (reportable_alt_max c))) FLT_EPSILON
       = true in
  (sent <> [] <-> due \/ changed)
  /\ (due \/ changed ->
       sent = [new_land_detected c]
       /\ _land_detected (self m') = new_land_detected c)
  /\ (~ (due \/ changed) -> sent = [] /\ _land_detected (self m') = last)
  /\ (changed -> sent <> [])
  /\ (~ changed -> sent <> [] ->
       due
       /\ (0 <= timestamp last <= elapsed_clock c ->
           elapsed_clock c <= publish_clock c ->
           elapsed_clock c < 2 ^ 64 ->
           _1_s <= timestamp (_land_detected (self m')) - timestamp last)).
Proof.
  cbv zeta.
  rewrite calls_made_spec, publications_of_cycle, Run_land_detected.
  pose proof (published_iff c m) as Hiff. cbv zeta in Hiff.
  destruct (published c m) eqn:Hp.
  - assert (Hd := proj1 Hiff eq_refl).
    split; [ split; [ trivial | discriminate ] | ].
    split; [ auto | ].
    split; [ tauto | ].
    split; [ discriminate | ].
    intros Hn _. destruct Hd as [Hd | Hd]; [ | contradiction ].
    split; trivial.
    intros Hts Hle Hlt. cbn [timestamp new_land_detected].
    unfold hrt_elapsed_time in Hd.
    rewrite to_uint64_small in Hd by (unfold Word.is_uint64; lia).
    lia.
  - assert (Hn : ~ (_1_s <=
                    hrt_elapsed_time (elapsed_clock c)
                      (timestamp (_land_detected (self m)))
                    \/ (landed (_land_detected (self m))
                        <> landed_hysteresis_state c
                        \/ freefall (_land_detected (self m))
                           <> freefall_hysteresis_state c
                        \/ maybe_landed (_land_detected (self m))
                           <> maybe_landed_hysteresis_state c
                        \/ ground_contact (_land_detected (self m))
                           <> ground_contact_hysteresis_state c
                        \/ in_ground_effect (_land_detected (self m))
                           <> ground_effect_hysteresis_state c
                        \/ gt (fabsf (sub (alt_max (_land_detected (self m)))
                                          (reportable_alt_max c)))
                              FLT_EPSILON = true))).
    { rewrite <- Hiff. discriminate. }
    split; [ split; [ congruence | tauto ] | ].
    split; [ tauto | ].
    split; [ auto | ].
    split; [ tauto | ].
    congruence.
Qed.

(** ** Maximum altitude *)

Lemma gt_zero_iff (x : float) :
  gt x zero = true <->
  x = INFINITY \/ exists mantissa exponent,
                   x = S754_finite false mantissa exponent.
Proof.
  unfold gt, zero, INFINITY, SFltb.
  destruct x as [[] | [] | | [] mx ex]; cbn; split;
    try discriminate; try tauto; try (intros [H | (? & ? & H)]; discriminate).
  - intros _. right. eauto.
Qed.

(** C7.  The reported [alt_max] is the subclass's maximum altitude when
    that is greater than zero (positive and finite, or +infinity), and
    +infinity otherwise; it is the [alt_max] of the snapshot a cycle
    publishes and keeps. *)
Theorem alt_max_positive_or_infinity c m :
  let m' := run_cycle DIST_BOTTOM_SENSOR_RANGE c m in
  (gt (max_altitude c) zero = true ->
   reportable_alt_max c = max_altitude c)
  /\ (gt (max_altitude c) zero = false -> reportable_alt_max c = INFINITY)
  /\ (gt (max_altitude c) zero = true <->
       max_altitude c = INFINITY
       \/ exists mantissa exponent,
           max_altitude c = S754_finite false mantissa exponent)
  /\ (forall msg,
        In msg (publications (calls_made DIST_BOTTOM_SENSOR_RANGE c m)) ->
        alt_max msg = reportable_alt_max c)
  /\ (publications (calls_made DIST_BOTTOM_SENSOR_RANGE c m) <> [] ->
       alt_max (_land_detected (self m')) = reportable_alt_max c).
Proof.
  cbv zeta.
  rewrite calls_made_spec, publications_of_cycle, Run_land_detected.
  unfold reportable_alt_max.
  split; [ intros ->; reflexivity | ].
  split; [ intros ->; reflexivity | ].
  split; [ apply gt_zero_iff | ].
  destruct (published c m); cbn [In]; split;
    try (intros msg [<- | []]; reflexivity);
    try reflexivity; try contradiction; congruence.
Qed.

(** ** Takeoff time *)

Lemma Run_vehicle_local_position c m :
  _vehicle_local_position (self (run_cycle DIST_BOTTOM_SENSOR_RANGE c m)) =
  local_position_after c m.
Proof. unfold run_cycle. rewrite Run_spec. reflexivity. Qed.

Lemma armed_after_stays c m :
  _armed (self m) = true ->
  actuator_armed_update c <> Some false ->
  armed_after c m = true.
Proof.
  unfold armed_after. intros Ha Hu.
  destruct (actuator_armed_update c) as [[] | ]; congruence.
Qed.

Lemma not_disarmed_while_armed c m :
  armed_after c m = true -> disarm_processed c m = false.
Proof.
  intros Ha. unfold disarm_processed. rewrite Ha.
  apply andb_false_iff. left. apply andb_false_r.
Qed.

(** While the vehicle stays armed, a tracked takeoff time stays. *)
Lemma takeoff_time_kept_while_armed cs : forall m,
  _takeoff_time (self m) <> 0 ->
  _armed (self m) = true ->
  stays_armed cs ->
  _takeoff_time (self (run_cycles DIST_BOTTOM_SENSOR_RANGE cs m)) =
  _takeoff_time (self m).
Proof.
  induction cs as [| c cs IH]; intros m Ht Ha Hs; [ reflexivity | ].
  inversion Hs as [| ? ? Hc Hs']; subst.
  pose proof (armed_after_stays c m Ha Hc) as Ha'.
  assert (Hk : _takeoff_time (self (run_cycle DIST_BOTTOM_SENSOR_RANGE c m))
               = _takeoff_time (self m)).
  { rewrite Run_takeoff_time, not_disarmed_while_armed by trivial.
    apply takeoff_time_after_publish_tracked, Ht. }
  cbn [run_cycles]. rewrite IH; trivial.
  - congruence.
  - rewrite Run_armed. exact Ha'.
Qed.

(** While the published [landed] is false and the vehicle stays armed,
    [_takeoff_time] is not written, whatever it holds. *)
Lemma takeoff_time_kept_while_flying cs : forall m,
  landed (_land_detected (self m)) = false ->
  _armed (self m) = true ->
  stays_armed cs ->
  Forall (fun c => landed_hysteresis_state c = false) cs ->
  _takeoff_time (self (run_cycles DIST_BOTTOM_SENSOR_RANGE cs m)) =
  _takeoff_time (self m).
Proof.
  induction cs as [| c cs IH]; intros m Hl Ha Hs Hf; [ reflexivity | ].
  inversion Hs as [| ? ? Hc Hs']; subst.
  inversion Hf as [| ? ? Hlc Hf']; subst.
  pose proof (armed_after_stays c m Ha Hc) as Ha'.
  assert (Hr : takeoff_recorded c m = false).
  { destruct (takeoff_recorded c m) eqn:E; trivial.
    apply takeoff_recorded_iff in E. destruct E as (_ & _ & E & _).
    congruence. }
  cbn [run_cycles]. rewrite IH; trivial.
  - rewrite Run_takeoff_time, not_disarmed_while_armed by trivial.
    unfold takeoff_time_after_publish. rewrite Hr. reflexivity.
  - rewrite Run_land_detected.
    destruct (published c m); [ exact Hlc | exact Hl ].
  - rewrite Run_armed. exact Ha'.
Qed.

(** C4.  [_takeoff_time] is written in two places only.  It takes the
    time of the cycle when that cycle publishes, the last published
    [landed] is true, the new one is false and no takeoff is tracked; it is
    cleared when a disarm is processed.  A tracked takeoff time is
    therefore kept, cycle after cycle, until the vehicle is seen disarmed;
    and over cycles that start landed and then report not-landed while the
    vehicle stays armed, it holds the time of the first of them. *)
Theorem takeoff_time_set_once c m :
  let m' := run_cycle DIST_BOTTOM_SENSOR_RANGE c m in
  let last := _land_detected (self m) in
  let sent := publications (calls_made DIST_BOTTOM_SENSOR_RANGE c m) in
  let disarm :=
    _previous_armed_state (self m) = true /\ _armed (self m') = false in
  (_takeoff_time (self m') <> _takeoff_time (self m) ->
   _takeoff_time (self m') <> 0 ->
   sent <> [] /\ landed last = true /\ landed_hysteresis_state c = false
   /\ _takeoff_time (self m) = 0 /\ _takeoff_time (self m') = now_us c)
  /\ (sent <> [] -> landed last = true -> landed_hysteresis_state c = false ->
       _takeoff_time (self m) = 0 -> ~ disarm ->
       _takeoff_time (self m') = now_us c)
  /\ (_takeoff_time (self m) <> 0 ->
       _takeoff_time (self m') = _takeoff_time (self m)
       \/ (_takeoff_time (self m') = 0 /\ disarm))
  /\ (disarm -> _takeoff_time (self m') = 0)
  /\ (forall cs,
        _takeoff_time (self m) <> 0 ->
        _armed (self m) = true ->
        stays_armed cs ->
        _takeoff_time (self (run_cycles DIST_BOTTOM_SENSOR_RANGE cs m)) =
        _takeoff_time (self m))
  /\ (forall cs,
        landed last = true ->
        _takeoff_time (self m) = 0 ->
        _armed (self m) = true ->
        stays_armed (c :: cs) ->
        Forall (fun c' => landed_hysteresis_state c' = false) (c :: cs) ->
        _takeoff_time
          (self (run_cycles DIST_BOTTOM_SENSOR_RANGE (c :: cs) m)) =
        now_us c).
Proof.
  cbv zeta.
  rewrite calls_made_spec, publications_of_cycle, Run_takeoff_time,
    Run_armed.
  pose proof (takeoff_recorded_iff c m) as Hrec.
  pose proof (disarm_processed_iff c m) as Hdis.
  assert (Hsent : (if published c m then [new_land_detected c] else [])
                  <> [] <-> published c m = true)
    by (destruct (published c m); intuition congruence).
  rewrite Hsent.
  split; [ | split; [ | split; [ | split; [ | split ] ] ] ].
  - unfold takeoff_time_after_publish in *.
    destruct (disarm_processed c m); [ congruence | ].
    destruct (takeoff_recorded c m); [ | congruence ].
    intros _ _. tauto.
  - intros Hp Hl Hs Ht Hn.
    assert (Hr : takeoff_recorded c m = true) by tauto.
    unfold takeoff_time_after_publish in *. rewrite Hr in *.
    destruct (disarm_processed c m); [ | reflexivity ].
    exfalso. apply Hn. split; apply Hdis; reflexivity.
  - intros Ht.
    rewrite (takeoff_time_after_publish_tracked c m Ht) in *.
    destruct (disarm_processed c m); [ right | left; reflexivity ].
    split; [ reflexivity | ]. split; apply Hdis; reflexivity.
  - intros [Hp Ha].
    destruct (Z.eq_dec (takeoff_time_after_publish c m) 0) as [H0 | H0].
    + rewrite H0. destruct (disarm_processed c m); reflexivity.
    + assert (Hd : disarm_processed c m = true) by tauto.
      rewrite Hd. reflexivity.
  - intros cs. apply takeoff_time_kept_while_armed.
  - intros cs Hl Ht Ha Hs Hf.
    inversion Hs as [| ? ? Hc Hs']; subst.
    inversion Hf as [| ? ? Hlc Hf']; subst.
    pose proof (armed_after_stays c m Ha Hc) as Ha'.
    assert (Hp : published c m = true).
    { apply published_iff. right. left. congruence. }
    assert (Hr : takeoff_recorded c m = true) by tauto.
    cbn [run_cycles]. rewrite takeoff_time_kept_while_flying; trivial.
    + rewrite Run_takeoff_time, not_disarmed_while_armed by trivial.
      unfold takeoff_time_after_publish. rewrite Hr. reflexivity.
    + rewrite Run_land_detected, Hp. exact Hlc.
    + rewrite Run_armed. exact Ha'.
Qed.

(** ** Distance to ground *)

Lemma hysteresis_factors_calls observable active valid :
  hysteresis_factors (hysteresis_factor_calls observable active valid) =
  if observable
  then if negb active && negb valid then [3]
       else if active && valid then [1] else []
  else [].
Proof. destruct observable, active, valid; reflexivity. Qed.

(** C5, amended.  Once [_dist_bottom_is_observable] is set: a cycle that
    finds the distance to ground not valid while the high hysteresis is not
    active sets the factor to 3 and marks it active; a cycle that finds it
    valid while the high hysteresis is active sets the factor to 1 and
    clears the mark; any other cycle calls neither and keeps the mark. *)
Theorem hysteresis_factor_follows_validity c m :
  _dist_bottom_is_observable (self m) = true ->
  let m' := run_cycle DIST_BOTTOM_SENSOR_RANGE c m in
  let valid := dist_bottom_valid (_vehicle_local_position (self m')) in
  let active := _high_hysteresis_active (self m) in
  let factors :=
    hysteresis_factors (calls_made DIST_BOTTOM_SENSOR_RANGE c m) in
  (active = false -> valid = false ->
   factors = [3] /\ _high_hysteresis_active (self m') = true)
  /\ (active = true -> valid = true ->
       factors = [1] /\ _high_hysteresis_active (self m') = false)
  /\ (active = negb valid ->
       factors = [] /\ _high_hysteresis_active (self m') = active).
Proof.
  intros Ho. cbv zeta.
  rewrite calls_made_spec, hysteresis_factors_of_cycle,
    hysteresis_factors_calls, Run_high_hysteresis_active,
    Run_vehicle_local_position.
  unfold high_hysteresis_active_after. rewrite Ho.
  destruct (_high_hysteresis_active (self m)),
    (dist_bottom_valid (local_position_after c m));
    cbn [negb andb]; repeat split; intros; congruence.
Qed.

(** The calls of a run, after those it started with. *)
Lemma run_cycles_calls cs : forall m,
  exists l, calls (run_cycles DIST_BOTTOM_SENSOR_RANGE cs m) = calls m ++ l.
Proof.
  induction cs as [| c cs IH]; intros m; cbn [run_cycles].
  - exists []. symmetry. apply app_nil_r.
  - destruct (IH (run_cycle DIST_BOTTOM_SENSOR_RANGE c m)) as [l Hl].
    rewrite Hl, Run_calls, <- app_assoc. eauto.
Qed.

Lemma dist_bottom_observable_kept cs : forall m,
  _dist_bottom_is_observable (self m) = true ->
  _dist_bottom_is_observable
    (self (run_cycles DIST_BOTTOM_SENSOR_RANGE cs m)) = true.
Proof.
  induction cs as [| c cs IH]; intros m Ho; [ exact Ho | ].
  cbn [run_cycles]. apply IH.
  rewrite Run_dist_bottom_is_observable.
  unfold dist_bottom_is_observable_after. rewrite Ho. reflexivity.
Qed.

Lemma no_hysteresis_factor_before_latch cs : forall m,
  _dist_bottom_is_observable
    (self (run_cycles DIST_BOTTOM_SENSOR_RANGE cs m)) = false ->
  hysteresis_factors
    (skipn (length (calls m))
       (calls (run_cycles DIST_BOTTOM_SENSOR_RANGE cs m))) = [].
Proof.
  induction cs as [| c cs IH]; intros m Hf; cbn [run_cycles] in *.
  - rewrite skipn_all. reflexivity.
  - pose proof (IH _ Hf) as Hrest.
    destruct (run_cycles_calls cs (run_cycle DIST_BOTTOM_SENSOR_RANGE c m))
      as [l Hl].
    rewrite Hl in *. rewrite Run_calls in *.
    rewrite skipn_app, skipn_all, Nat.sub_diag in Hrest. cbn in Hrest.
    rewrite <- app_assoc, skipn_app, skipn_all, Nat.sub_diag. cbn [skipn app].
    rewrite hysteresis_factors_app, Hrest, app_nil_r.
    rewrite hysteresis_factors_of_cycle, hysteresis_factors_calls.
    destruct (_dist_bottom_is_observable (self m)) eqn:Ho; [ | reflexivity ].
    rewrite dist_bottom_observable_kept in Hf; [ discriminate | ].
    rewrite Run_dist_bottom_is_observable.
    unfold dist_bottom_is_observable_after. rewrite Ho. reflexivity.
Qed.

(** C6.  [_dist_bottom_is_observable], once true, is true after every
    later cycle, whatever the sensor bitfield holds then.  While it is
    false, a cycle sets it exactly when the cached position report has the
    ranging-sensor bit set, makes no call to [_set_hysteresis_factor] and
    leaves [_high_hysteresis_active] alone; a run that ends with it false
    has made no such call at all. *)
Theorem dist_bottom_observable_latches c m :
  let m' := run_cycle DIST_BOTTOM_SENSOR_RANGE c m in
  (forall cs,
      _dist_bottom_is_observable (self m) = true ->
      _dist_bottom_is_observable
        (self (run_cycles DIST_BOTTOM_SENSOR_RANGE cs m)) = true)
  /\ (_dist_bottom_is_observable (self m) = false ->
       hysteresis_factors (calls_made DIST_BOTTOM_SENSOR_RANGE c m) = []
       /\ _high_hysteresis_active (self m')
          = _high_hysteresis_active (self m)
       /\ (_dist_bottom_is_observable (self m') = true <->
           Z.land (dist_bottom_sensor_bitfield
                     (_vehicle_local_position (self m')))
                  DIST_BOTTOM_SENSOR_RANGE <> 0))
  /\ (forall cs,
        _dist_bottom_is_observable
          (self (run_cycles DIST_BOTTOM_SENSOR_RANGE cs m)) = false ->
        hysteresis_factors
          (skipn (length (calls m))
             (calls (run_cycles DIST_BOTTOM_SENSOR_RANGE cs m))) = []).
Proof.
  cbv zeta. split; [ | split ].
  - intros cs. apply dist_bottom_observable_kept.
  - intros Ho.
    rewrite calls_made_spec, hysteresis_factors_of_cycle,
      hysteresis_factors_calls, Run_high_hysteresis_active,
      Run_dist_bottom_is_observable, Run_vehicle_local_position.
    unfold high_hysteresis_active_after, dist_bottom_is_observable_after.
    rewrite Ho. cbn [orb].
    rewrite negb_true_iff, Z.eqb_neq. tauto.
  - intros cs. apply no_hysteresis_factor_before_latch.
Qed.

End Cycle.

(** * The scenarios, run *)

Lemma disarm_adds_flight_time_at_5000ms :
  _takeoff_time (self airborne) = 1000000
  /\ _total_flight_time (self (run_cycle 1 disarm_cycle airborne)) =
     _total_flight_time (self airborne) + 4000000
  /\ _takeoff_time (self (run_cycle 1 disarm_cycle airborne)) = 0
  /\ stored_flight_time_high (run_cycle 1 disarm_cycle airborne) = 0
  /\ stored_flight_time_low (run_cycle 1 disarm_cycle airborne) = 4000000.
Proof.
  destruct (disarm_adds_flight_time 1 disarm_cycle airborne)
    as (_ & Hclear & Hhigh & Hlow & _ & _ & _ & _ & Hkept & Hexact).
  - reflexivity.
  - reflexivity.
  - vm_compute. discriminate.
  - split; [ reflexivity | ].
    split.
    + rewrite Hexact.
      * rewrite Hkept by (left; reflexivity). reflexivity.
      * vm_compute. discriminate.
      * vm_compute. discriminate.
      * vm_compute. reflexivity.
    + split; [ exact Hclear | ].
      split; [ rewrite Hhigh | rewrite Hlow ]; reflexivity.
Defined.

Lemma flight_time_round_trip_high_bits_set :
  Word.is_uint64 0xdeadbeefcafebabe
  /\ total_flight_time_of_params
       (Word.to_int32 (flight_time_high 0xdeadbeefcafebabe))
       (Word.to_int32 (flight_time_low 0xdeadbeefcafebabe))
     = 0xdeadbeefcafebabe.
Proof.
  assert (H : Word.is_uint64 0xdeadbeefcafebabe)
    by (unfold Word.is_uint64; lia).
  split; [ exact H | exact (flight_time_round_trip _ H) ].
Defined.

Lemma publish_on_change_and_not_before_1s :
  publications (calls_made 1 takeoff_cycle on_ground_armed) =
  [new_land_detected takeoff_cycle]
  /\ publications (calls_made 1 (flying_cycle 1050000) airborne) = []
  /\ publications (calls_made 1 (flying_cycle 2000001) airborne) =
     [new_land_detected (flying_cycle 2000001)].
Proof.
  destruct (publish_iff_due_or_changed 1 takeoff_cycle on_ground_armed)
    as (_ & Hchanged & _).
  destruct (publish_iff_due_or_changed 1 (flying_cycle 1050000) airborne)
    as (_ & _ & Hquiet & _).
  destruct (publish_iff_due_or_changed 1 (flying_cycle 2000001) airborne)
    as (_ & Hdue & _).
  split; [ | split ].
  - apply Hchanged. right. left. vm_compute. discriminate.
  - apply Hquiet. vm_compute.
    intros [H | [H | [H | [H | [H | [H | H]]]]]];
      try discriminate; apply H; reflexivity.
  - apply Hdue. left. vm_compute. discriminate.
Defined.

Lemma takeoff_time_of_first_flying_cycle :
  _takeoff_time
    (self (run_cycles 1
             [flying_cycle 1000000; flying_cycle 1050000;
              flying_cycle 1100000] on_ground_armed)) = 1000000
  /\ _takeoff_time (self (run_cycle 1 disarm_cycle airborne)) = 0.
Proof.
  destruct (takeoff_time_set_once 1 (flying_cycle 1000000) on_ground_armed)
    as (_ & _ & _ & _ & _ & Hseq).
  destruct (takeoff_time_set_once 1 disarm_cycle airborne)
    as (_ & _ & _ & Hclear & _).
  split.
  - apply Hseq; try reflexivity.
    + repeat constructor; discriminate.
    + repeat constructor.
  - apply Hclear. split; reflexivity.
Defined.

Lemma hysteresis_factor_raised_without_valid_distance :
  hysteresis_factors (calls_made 1 (flying_cycle 1000000) ranging_seen) = [3]
  /\ _high_hysteresis_active
       (self (run_cycle 1 (flying_cycle 1000000) ranging_seen)) = true.
Proof.
  destruct (hysteresis_factor_follows_validity 1 (flying_cycle 1000000)
              ranging_seen eq_refl) as (Hraise & _ & _).
  apply Hraise; reflexivity.
Defined.

(** C5, as stated, fails: after the latch, with the high hysteresis not
    active, a cycle in which the distance to ground goes from not valid to
    valid makes no call to [_set_hysteresis_factor] and does not mark the
    high hysteresis active. *)
Lemma validity_regained_does_not_raise_factor :
  _dist_bottom_is_observable (self ranging_seen) = true
  /\ _high_hysteresis_active (self ranging_seen) = false
  /\ dist_bottom_valid (_vehicle_local_position (self ranging_seen)) = false
  /\ dist_bottom_valid
       (_vehicle_local_position
          (self (run_cycle 1 (position_cycle 1000000 true 1) ranging_seen)))
     = true
  /\ ~ (hysteresis_factors
          (calls_made 1 (position_cycle 1000000 true 1) ranging_seen) = [3]
        /\ _high_hysteresis_active
             (self (run_cycle 1 (position_cycle 1000000 true 1)
                      ranging_seen)) = true).
Proof.
  repeat split; try reflexivity.
  vm_compute. intros [H _]. discriminate.
Qed.

Lemma dist_bottom_observable_after_the_bit_clears :
  hysteresis_factors
    (calls_made 1 (position_cycle 950000 false 1) on_ground_armed) = []
  /\ _dist_bottom_is_observable (self ranging_seen) = true
  /\ _dist_bottom_is_observable
       (self (run_cycles 1
                [position_cycle 1000000 false 0;
                 position_cycle 1050000 true 0] ranging_seen)) = true.
Proof.
  destruct (dist_bottom_observable_latches 1 (position_cycle 950000 false 1)
              on_ground_armed) as (_ & Hbefore & _).
  destruct (dist_bottom_observable_latches 1 (flying_cycle 1000000)
              ranging_seen) as (Hlatch & _ & _).
  destruct (Hbefore eq_refl) as (Hnone & _ & Hset).
  split; [ exact Hnone | ].
  split; [ apply Hset; vm_compute; discriminate | ].
  apply Hlatch. reflexivity.
Defined.

Lemma alt_max_of_ten_metres_and_of_zero :
  reportable_alt_max (ceiling_cycle 1000000) = ten_metres
  /\ reportable_alt_max (flying_cycle 1000000) = INFINITY
  /\ alt_max
       (_land_detected
          (self (run_cycle 1 (ceiling_cycle 1000000) on_ground_armed)))
     = ten_metres.
Proof.
  destruct (alt_max_positive_or_infinity 1 (ceiling_cycle 1000000)
              on_ground_armed) as (Hpos & _ & _ & _ & Hkept).
  destruct (alt_max_positive_or_infinity 1 (flying_cycle 1000000)
              on_ground_armed) as (_ & Hinf & _).
  split; [ apply Hpos; reflexivity | ].
  split; [ apply Hinf; reflexivity | ].
  rewrite Hkept.
  - apply Hpos. reflexivity.
  - vm_compute. discriminate.
Defined.

Lemma no_refresh_after_flight_time_is_stored :
  commits (calls_made 1 disarm_cycle airborne) =
  [(total_flight_time_high, 0); (total_flight_time_low, 4000000)]
  /\ parameter_update_pending (run_cycle 1 disarm_cycle airborne) = false
  /\ ~ In CallUpdateParams
         (calls_made 1 (flying_cycle 5050000)
            (run_cycle 1 disarm_cycle airborne))
  /\ In CallUpdateParams
       (calls_made 1 (flying_cycle 1000000) param_edited).
Proof.
  destruct (parameter_refresh_only_on_update 1 disarm_cycle airborne)
    as (_ & _ & _ & Hpending & Hnext).
  destruct (parameter_refresh_only_on_update 1 (flying_cycle 1000000)
              param_edited) as (Hiff & _).
  split; [ reflexivity | ].
  split; [ exact Hpending | ].
  split.
  - apply (Hnext (flying_cycle 5050000)). vm_compute. discriminate.
  - apply Hiff. left. reflexivity.
Defined.

Lemma schedule_cleared_on_exit_only :
  ~ In CallScheduleClear (calls_made 1 takeoff_cycle on_ground_armed)
  /\ exists rest,
       calls_made 1 takeoff_cycle on_ground_armed =
       CallScheduleDelayed 50000 :: rest.
Proof.
  destruct (schedule_rearmed_every_cycle 1 takeoff_cycle on_ground_armed)
    as ((middle & Hshape & _) & Hclear).
  split.
  - intros H. apply Hclear in H. discriminate H.
  - eexists. exact Hshape.
Defined.

Lemma disarm_on_ground_keeps_flight_time :
  stored_flight_time_high
    (run_cycle 1 (disarm_on_ground_cycle 1000000) on_ground_armed) = 0
  /\ stored_flight_time_low
       (run_cycle 1 (disarm_on_ground_cycle 1000000) on_ground_armed) = 0
  /\ commits
       (calls_made 1 (disarm_on_ground_cycle 1000000) on_ground_armed) = []
  /\ _total_flight_time
       (self (run_cycle 1 (disarm_on_ground_cycle 1000000) on_ground_armed))
     = _total_flight_time (self on_ground_armed).
Proof.
  destruct (flight_time_kept_without_takeoff 1
              (disarm_on_ground_cycle 1000000) on_ground_armed)
    as (Hkept & _ & _).
  destruct Hkept as (Hhigh & Hlow & Hnone & _ & Htotal); try reflexivity.
  split; [ exact Hhigh | ].
  split; [ exact Hlow | ].
  split; [ exact Hnone | ].
  apply Htotal. left. reflexivity.
Defined.

(** C10, as stated, fails: a cycle that finds the vehicle disarmed after
    it was armed, with no takeoff tracked, and that starts with a parameter
    update pending, reloads the accumulator from the store. *)
Lemma flight_time_reloaded_on_disarm_without_takeoff :
  _previous_armed_state (self param_edited) = true
  /\ _armed
       (self (run_cycle 1 (disarm_on_ground_cycle 1000000) param_edited))
     = false
  /\ _takeoff_time (self param_edited) = 0
  /\ takeoff_time_after_publish (disarm_on_ground_cycle 1000000) param_edited
     = 0
  /\ _total_flight_time (self param_edited) = 0
  /\ _total_flight_time
       (self (run_cycle 1 (disarm_on_ground_cycle 1000000) param_edited))
     = 7
  /\ ~ (_total_flight_time
          (self (run_cycle 1 (disarm_on_ground_cycle 1000000) param_edited))
        = _total_flight_time (self param_edited)).
Proof.
  repeat split; try reflexivity.
  vm_compute. discriminate.
Qed.

(** * More of the cycle, and runs of cycles *)

(** ** Fixed-width integers, the other way round *)

Lemma to_int32_range z : Word.is_int32 (Word.to_int32 z).
Proof.
  unfold Word.is_int32, Word.to_int32.
  pose proof (Z.mod_pos_bound z (2 ^ 32) ltac:(lia)) as H.
  cbv zeta. destruct (Z.ltb_spec (z mod 2 ^ 32) (2 ^ 31)); lia.
Qed.

Lemma to_int32_to_uint32 z :
  Word.is_int32 z -> Word.to_int32 (Word.to_uint32 z) = z.
Proof.
  unfold Word.is_int32, Word.to_int32, Word.to_uint32. intros H.
  rewrite Z.mod_mod by lia. cbv zeta.
  destruct (Z_lt_le_dec z 0) as [Hn | Hp].
  - replace (z mod 2 ^ 32) with (z + 2 ^ 32).
    + destruct (Z.ltb_spec (z + 2 ^ 32) (2 ^ 31)); lia.
    + apply Z.mod_unique with (q := -1); lia.
  - rewrite Z.mod_small by lia.
    destruct (Z.ltb_spec z (2 ^ 31)); lia.
Qed.

(** Lines 78-79 on any two parameter values: the two unsigned halves,
    side by side. *)
Lemma total_flight_time_of_params_unsigned high low :
  total_flight_time_of_params high low =
  Word.to_uint32 high * 2 ^ 32 + Word.to_uint32 low.
Proof.
  unfold total_flight_time_of_params.
  rewrite shiftl_32_sign_extended.
  apply lor_halves, to_uint32_range.
Qed.

Lemma total_flight_time_of_params_range high low :
  Word.is_uint64 (total_flight_time_of_params high low).
Proof.
  rewrite total_flight_time_of_params_unsigned.
  pose proof (to_uint32_range high) as Hh.
  pose proof (to_uint32_range low) as Hl.
  unfold Word.is_uint32, Word.is_uint64 in *. lia.
Qed.

(** X5.  Rebuilding the accumulator from two [int32_t] parameter values
    (lines 78-79) and splitting it again (lines 160-168) gives the two
    values back: a refresh followed by a commit stores what was stored. *)
Theorem params_round_trip high low :
  Word.is_int32 high ->
  Word.is_int32 low ->
  param_high_of (total_flight_time_of_params high low) = high
  /\ param_low_of (total_flight_time_of_params high low) = low.
Proof.
  intros Hh Hl.
  pose proof (total_flight_time_of_params_range high low) as Hr.
  unfold param_high_of, param_low_of.
  rewrite flight_time_high_div, flight_time_low_mod by exact Hr.
  rewrite total_flight_time_of_params_unsigned.
  pose proof (to_uint32_range high) as Hhu.
  pose proof (to_uint32_range low) as Hlu.
  unfold Word.is_uint32 in Hhu, Hlu.
  rewrite Z.div_add_l, Z.div_small, Z.add_0_r by lia.
  rewrite Z.add_comm, Z.mod_add, Z.mod_small by lia.
  split; apply to_int32_to_uint32; assumption.
Qed.

Section Runs.

Variable DIST_BOTTOM_SENSOR_RANGE : Z.

(** ** The log of a run *)

Lemma skipn_length_app {A} (l1 l2 : list A) :
  skipn (length l1) (l1 ++ l2) = l2.
Proof. induction l1 as [| a l1 IH]; [ reflexivity | exact IH ]. Qed.

Lemma calls_made_by_run_nil m :
  calls_made_by_run DIST_BOTTOM_SENSOR_RANGE [] m = [].
Proof. unfold calls_made_by_run. cbn [run_cycles]. apply skipn_all. Qed.

Lemma calls_made_by_run_cons c cs m :
  calls_made_by_run DIST_BOTTOM_SENSOR_RANGE (c :: cs) m =
  calls_of_cycle c m
  ++ calls_made_by_run DIST_BOTTOM_SENSOR_RANGE cs
       (run_cycle DIST_BOTTOM_SENSOR_RANGE c m).
Proof.
  unfold calls_made_by_run. cbn [run_cycles].
  destruct (run_cycles_calls DIST_BOTTOM_SENSOR_RANGE cs
              (run_cycle DIST_BOTTOM_SENSOR_RANGE c m)) as [l Hl].
  rewrite Hl, skipn_length_app, Run_calls, <- app_assoc, skipn_length_app.
  reflexivity.
Qed.

Lemma Run_acceleration c m :
  _acceleration (self (run_cycle DIST_BOTTOM_SENSOR_RANGE c m)) =
  match vehicle_acceleration_update c with
  | Some xyz => xyz
  | None => _acceleration (self m)
  end.
Proof. unfold run_cycle. rewrite Run_spec. reflexivity. Qed.

Lemma Run_vehicle_status c m :
  _vehicle_status (self (run_cycle DIST_BOTTOM_SENSOR_RANGE c m)) =
  match vehicle_status_update c with
  | Some status => status
  | None => _vehicle_status (self m)
  end.
Proof. unfold run_cycle. rewrite Run_spec. reflexivity. Qed.

Lemma Run_param_total_flight_time_high c m :
  _param_total_flight_time_high
    (self (run_cycle DIST_BOTTOM_SENSOR_RANGE c m)) =
  if disarm_processed c m
  then param_high_of (total_flight_time_after_cycle c m)
  else if refresh_due m then stored_flight_time_high m
  else _param_total_flight_time_high (self m).
Proof. unfold run_cycle. rewrite Run_spec. reflexivity. Qed.

Lemma Run_param_total_flight_time_low c m :
  _param_total_flight_time_low
    (self (run_cycle DIST_BOTTOM_SENSOR_RANGE c m)) =
  if disarm_processed c m
  then param_low_of (total_flight_time_after_cycle c m)
  else if refresh_due m then stored_flight_time_low m
  else _param_total_flight_time_low (self m).
Proof. unfold run_cycle. rewrite Run_spec. reflexivity. Qed.

(** ** Telemetry caches *)

(** X2.  After a run, each of the four cached messages is the last one
    its subscription delivered during the run, and the one cached before
    the run when none was delivered: a silent subscription never resets
    its cache. *)
Theorem caches_hold_latest_message cs : forall m,
  let m' := run_cycles DIST_BOTTOM_SENSOR_RANGE cs m in
  _armed (self m') = latest actuator_armed_update cs (_armed (self m))
  /\ _acceleration (self m') =
     latest vehicle_acceleration_update cs (_acceleration (self m))
  /\ _vehicle_local_position (self m') =
     latest vehicle_local_position_update cs
       (_vehicle_local_position (self m))
  /\ _vehicle_status (self m') =
     latest vehicle_status_update cs (_vehicle_status (self m)).
Proof.
  unfold latest.
  induction cs as [| c cs IH]; intros m; cbn [run_cycles fold_left].
  - repeat split.
  - destruct (IH (run_cycle DIST_BOTTOM_SENSOR_RANGE c m))
      as (Ha & Hx & Hp & Hs).
    cbv zeta in *.
    rewrite Ha, Hx, Hp, Hs, Run_armed, Run_acceleration,
      Run_vehicle_local_position, Run_vehicle_status.
    repeat split.
Qed.

(** ** Disarming *)

(** X1.  A disarm is processed once.  Line 171 copies [_armed] into
    [_previous_armed_state] at the end of every cycle, so the cycle that
    follows commits flight time only if it receives a disarmed message
    itself while the cycle before it ended armed; a cycle without an armed
    message, after any cycle, commits nothing, leaves the store alone and
    clears no takeoff time. *)
Theorem disarm_processed_once c1 c2 m :
  let m1 := run_cycle DIST_BOTTOM_SENSOR_RANGE c1 m in
  let m2 := run_cycle DIST_BOTTOM_SENSOR_RANGE c2 m1 in
  (commits (calls_made DIST_BOTTOM_SENSOR_RANGE c2 m1) <> [] ->
   actuator_armed_update c2 = Some false /\ _armed (self m1) = true)
  /\ (actuator_armed_update c2 = None ->
      commits (calls_made DIST_BOTTOM_SENSOR_RANGE c2 m1) = []
      /\ stored_flight_time_high m2 = stored_flight_time_high m1
      /\ stored_flight_time_low m2 = stored_flight_time_low m1
      /\ (_takeoff_time (self m1) <> 0 ->
          _takeoff_time (self m2) = _takeoff_time (self m1))).
Proof.
  cbv zeta.
  set (m1 := run_cycle DIST_BOTTOM_SENSOR_RANGE c1 m).
  assert (Hprev : _previous_armed_state (self m1) = _armed (self m1)).
  { subst m1. rewrite Run_previous_armed_state, Run_armed. reflexivity. }
  rewrite calls_made_spec, commits_of_cycle, Run_stored_flight_time_high,
    Run_stored_flight_time_low, Run_takeoff_time.
  pose proof (disarm_processed_iff c2 m1) as Hd.
  unfold armed_after in Hd.
  destruct (disarm_processed c2 m1).
  - destruct (proj1 Hd eq_refl) as (_ & Ha & Hp).
    split.
    + intros _. rewrite <- Hprev, Hp.
      destruct (actuator_armed_update c2) as [[] | ];
        [ discriminate | tauto | congruence ].
    + intros Hnone. rewrite Hnone in Ha. congruence.
  - split; [ congruence | ]. intros Hnone.
    repeat split. apply takeoff_time_after_publish_tracked.
Qed.

(** ** Ranges *)

Lemma takeoff_time_after_publish_range c m :
  Word.is_uint64 (_takeoff_time (self m)) ->
  Word.is_uint64 (now_us c) ->
  Word.is_uint64 (takeoff_time_after_publish c m).
Proof.
  unfold takeoff_time_after_publish.
  destruct (takeoff_recorded c m); trivial.
Qed.

Lemma total_flight_time_after_refresh_range m :
  Word.is_uint64 (_total_flight_time (self m)) ->
  Word.is_uint64 (total_flight_time_after_refresh m).
Proof.
  unfold total_flight_time_after_refresh.
  destruct (refresh_due m); auto using total_flight_time_of_params_range.
Qed.

Lemma in_range_kept c m :
  Word.is_uint64 (now_us c) ->
  in_range m ->
  in_range (run_cycle DIST_BOTTOM_SENSOR_RANGE c m).
Proof.
  intros Hnow (Ht & Hk & Hph & Hpl & Hsh & Hsl). unfold in_range.
  rewrite Run_total_flight_time, Run_takeoff_time,
    Run_param_total_flight_time_high, Run_param_total_flight_time_low,
    Run_stored_flight_time_high, Run_stored_flight_time_low.
  unfold total_flight_time_after_cycle, param_high_of, param_low_of.
  pose proof (total_flight_time_after_refresh_range m Ht).
  pose proof (takeoff_time_after_publish_range c m Hk Hnow).
  destruct (disarm_processed c m), (refresh_due m);
    refine (conj _ (conj _ (conj _ (conj _ (conj _ _)))));
    first [ solve [ auto using to_uint64_range, to_int32_range ]
          | unfold Word.is_uint64; lia ].
Qed.

(** X3.  The integer state stays within its C++ types.  If the
    accumulator and the takeoff time are [uint64_t] values and the
    parameter values and stored halves are [int32_t] values, they still
    are after any run whose cycles read a [uint64_t] clock. *)
Theorem in_range_after_run cs : forall m,
  in_range m ->
  Forall (fun c => Word.is_uint64 (now_us c)) cs ->
  in_range (run_cycles DIST_BOTTOM_SENSOR_RANGE cs m).
Proof.
  induction cs as [| c cs IH]; intros m Hm Hcs; [ exact Hm | ].
  inversion Hcs as [| ? ? Hc Hcs']; subst.
  cbn [run_cycles]. apply IH; [ | exact Hcs' ].
  apply in_range_kept; assumption.
Qed.

(** ** Persistence *)

(** X4.  Flight time survives a restart.  From a machine whose stored
    halves agree with its accumulator, run any cycles; a machine that then
    starts on the same store with a zero time stamp (and was not armed
    before) holds the accumulator of the first machine after its first
    cycle. *)
Theorem flight_time_survives_restart cs c m fresh :
  params_in_sync m ->
  stored_flight_time_high fresh =
  stored_flight_time_high (run_cycles DIST_BOTTOM_SENSOR_RANGE cs m) ->
  stored_flight_time_low fresh =
  stored_flight_time_low (run_cycles DIST_BOTTOM_SENSOR_RANGE cs m) ->
  timestamp (_land_detected (self fresh)) = 0 ->
  _previous_armed_state (self fresh) = false ->
  _total_flight_time (self (run_cycle DIST_BOTTOM_SENSOR_RANGE c fresh)) =
  _total_flight_time (self (run_cycles DIST_BOTTOM_SENSOR_RANGE cs m)).
Proof.
  intros Hsync Hh Hl Hts Hprev.
  pose proof (params_in_sync_kept DIST_BOTTOM_SENSOR_RANGE cs m Hsync)
    as Hend.
  unfold params_in_sync in Hend.
  rewrite Run_total_flight_time. unfold total_flight_time_after_cycle.
  assert (Hd : disarm_processed c fresh = false).
  { unfold disarm_processed. rewrite Hprev. apply andb_false_r. }
  assert (Hr : refresh_due fresh = true)
    by (apply refresh_due_iff; right; exact Hts).
  rewrite Hd. unfold total_flight_time_after_refresh.
  rewrite Hr, Hh, Hl. exact Hend.
Qed.

(** X10.  Parameters are written while disarmed only.  A cycle that
    commits a half ends with [_armed] false; and over a run that starts
    armed and never receives a disarmed message, nothing is committed and
    the two stored halves keep their values. *)
Theorem no_commit_while_armed c m :
  (commits (calls_made DIST_BOTTOM_SENSOR_RANGE c m) <> [] ->
   _armed (self (run_cycle DIST_BOTTOM_SENSOR_RANGE c m)) = false)
  /\ (forall cs,
        _armed (self m) = true ->
        stays_armed cs ->
        commits (calls_made_by_run DIST_BOTTOM_SENSOR_RANGE cs m) = []
        /\ stored_flight_time_high
             (run_cycles DIST_BOTTOM_SENSOR_RANGE cs m)
           = stored_flight_time_high m
        /\ stored_flight_time_low
             (run_cycles DIST_BOTTOM_SENSOR_RANGE cs m)
           = stored_flight_time_low m).
Proof.
  split.
  - rewrite calls_made_spec, commits_of_cycle, Run_armed.
    destruct (disarm_processed c m) eqn:Hd; [ | congruence ].
    intros _. apply disarm_processed_iff in Hd. tauto.
  - intros cs. revert m.
    induction cs as [| c' cs IH]; intros m' Ha Hs.
    + rewrite calls_made_by_run_nil. repeat split.
    + inversion Hs as [| ? ? Hc Hs']; subst.
      pose proof (armed_after_stays c' m' Ha Hc) as Ha'.
      pose proof (not_disarmed_while_armed c' m' Ha') as Hd.
      destruct (IH (run_cycle DIST_BOTTOM_SENSOR_RANGE c' m'))
        as (Hnone & Hh & Hl); [ rewrite Run_armed; exact Ha' | exact Hs' | ].
      cbn [run_cycles].
      rewrite calls_made_by_run_cons, commits_app, commits_of_cycle, Hd,
        Hnone, Hh, Hl, Run_stored_flight_time_high,
        Run_stored_flight_time_low, Hd.
      repeat split.
Qed.

(** ** Hysteresis factor over a run *)

Lemma alternating_after_cycle (active valid observable : bool) rest :
  alternating (if observable then negb valid else active) rest ->
  alternating active
    (hysteresis_factors (hysteresis_factor_calls observable active valid)
     ++ rest).
Proof.
  destruct observable, active, valid; cbn; tauto.
Qed.

(** X6.  The factors passed to [_set_hysteresis_factor] over any run
    alternate: the first is 3 if the high hysteresis is not active at the
    start (1 if it is), and no factor is ever set twice in a row. *)
Theorem hysteresis_factors_alternate cs : forall m,
  alternating (_high_hysteresis_active (self m))
    (hysteresis_factors (calls_made_by_run DIST_BOTTOM_SENSOR_RANGE cs m)).
Proof.
  induction cs as [| c cs IH]; intros m.
  - rewrite calls_made_by_run_nil. exact I.
  - rewrite calls_made_by_run_cons, hysteresis_factors_app,
      hysteresis_factors_of_cycle.
    apply alternating_after_cycle.
    specialize (IH (run_cycle DIST_BOTTOM_SENSOR_RANGE c m)).
    rewrite Run_high_hysteresis_active in IH. exact IH.
Qed.

(** X7.  After the latch, the mark follows the validity.  At the end of
    every cycle that starts with [_dist_bottom_is_observable] set,
    [_high_hysteresis_active] is the negation of the cached
    [dist_bottom_valid]; so it is after any run of one cycle or more. *)
Theorem high_hysteresis_mirrors_validity cs : forall c m,
  _dist_bottom_is_observable (self m) = true ->
  let m' := run_cycles DIST_BOTTOM_SENSOR_RANGE (c :: cs) m in
  _high_hysteresis_active (self m') =
  negb (dist_bottom_valid (_vehicle_local_position (self m'))).
Proof.
  induction cs as [| c2 cs IH]; intros c m Ho; cbv zeta.
  - cbn [run_cycles].
    rewrite Run_high_hysteresis_active, Run_vehicle_local_position.
    unfold high_hysteresis_active_after. rewrite Ho. reflexivity.
  - change (run_cycles DIST_BOTTOM_SENSOR_RANGE (c :: c2 :: cs) m)
      with (run_cycles DIST_BOTTOM_SENSOR_RANGE (c2 :: cs)
              (run_cycle DIST_BOTTOM_SENSOR_RANGE c m)).
    apply IH.
    rewrite Run_dist_bottom_is_observable.
    unfold dist_bottom_is_observable_after. rewrite Ho. reflexivity.
Qed.

(** ** Publications over a run *)

Lemma last_default_irrelevant {A} (l : list A) : forall x d d',
  last (x :: l) d = last (x :: l) d'.
Proof.
  induction l as [| y l IH]; intros x d d'; [ reflexivity | ].
  change (last (y :: l) d = last (y :: l) d'). apply IH.
Qed.

Lemma last_app_default {A} (l1 l2 : list A) : forall d,
  last (l1 ++ l2) d = last l2 (last l1 d).
Proof.
  induction l1 as [| a l1 IH]; intros d; [ reflexivity | ].
  destruct l1 as [| b l1].
  - destruct l2 as [| x l2]; [ reflexivity | ].
    change (last (x :: l2) d = last (x :: l2) a).
    apply last_default_irrelevant.
  - change (last ((b :: l1) ++ l2) d = last l2 (last (b :: l1) d)).
    apply IH.
Qed.

(** X8.  The engine's snapshot is the last one it published.  After any
    run, [_land_detected] is the last snapshot handed to the publisher
    during the run, and the snapshot of before the run when none was. *)
Theorem land_detected_is_last_publication cs : forall m,
  _land_detected (self (run_cycles DIST_BOTTOM_SENSOR_RANGE cs m)) =
  last (publications (calls_made_by_run DIST_BOTTOM_SENSOR_RANGE cs m))
       (_land_detected (self m)).
Proof.
  induction cs as [| c cs IH]; intros m.
  - rewrite calls_made_by_run_nil. reflexivity.
  - cbn [run_cycles].
    rewrite IH, calls_made_by_run_cons, publications_app,
      publications_of_cycle, last_app_default, Run_land_detected.
    destruct (published c m); reflexivity.
Qed.

(** ** Start-up *)


Lemma pending_cleared c m :
  parameter_update_pending (run_cycle DIST_BOTTOM_SENSOR_RANGE c m) = false.
Proof.
  rewrite Run_parameter_update_pending. unfold refresh_due.
  destruct (parameter_update_pending m), (_ =? 0); reflexivity.
Qed.


(** X12.  Without a notification from outside, the parameters are not
    re-read once a snapshot has been published.  From a machine with no
    update pending and a time stamp that is not zero, a run whose
    publication clocks are not zero never calls [updateParams()] and ends
    with a time stamp that is not zero. *)
Theorem no_refresh_without_notification cs : forall m,
  parameter_update_pending m = false ->
  timestamp (_land_detected (self m)) <> 0 ->
  Forall (fun c => publish_clock c <> 0) cs ->
  ~ In CallUpdateParams
      (calls_made_by_run DIST_BOTTOM_SENSOR_RANGE cs m)
  /\ timestamp
       (_land_detected (self (run_cycles DIST_BOTTOM_SENSOR_RANGE cs m)))
     <> 0.
Proof.
  induction cs as [| c cs IH]; intros m Hp Hts Hcs.
  - rewrite calls_made_by_run_nil. split; [ intros [] | exact Hts ].
  - inversion Hcs as [| ? ? Hc Hcs']; subst.
    assert (Hr : refresh_due m = false).
    { destruct (refresh_due m) eqn:E; trivial.
      apply refresh_due_iff in E. destruct E; congruence. }
    destruct (IH (run_cycle DIST_BOTTOM_SENSOR_RANGE c m)) as [Hno Hts'].
    + apply pending_cleared.
    + rewrite Run_land_detected.
      destruct (published c m); [ exact Hc | exact Hts ].
    + exact Hcs'.
    + cbn [run_cycles]. split; [ | exact Hts' ].
      rewrite calls_made_by_run_cons, in_app_iff, refresh_logged_iff.
      intros [H | H]; [ congruence | contradiction ].
Qed.

(** ** Scheduling over a run *)

Lemma count_calls_app kind l1 l2 :
  count_calls kind (l1 ++ l2) =
  (count_calls kind l1 + count_calls kind l2)%nat.
Proof. unfold count_calls. rewrite filter_app. apply length_app. Qed.

Lemma schedule_calls_of_cycle c m :
  count_calls is_schedule_delayed (calls_of_cycle c m) = 1%nat
  /\ count_calls is_register_callback (calls_of_cycle c m) = 0%nat
  /\ count_calls is_schedule_clear (calls_of_cycle c m) =
     (if should_exit c then 1 else 0)%nat.
Proof.
  unfold calls_of_cycle, hysteresis_factor_calls.
  destruct (refresh_due m), (_dist_bottom_is_observable (self m)),
    (_high_hysteresis_active (self m)),
    (dist_bottom_valid (local_position_after c m)),
    (published c m), (disarm_processed c m), (should_exit c);
    repeat split.
Qed.

Lemma run_cycles_log cs m :
  calls (run_cycles DIST_BOTTOM_SENSOR_RANGE cs m) =
  calls m ++ calls_made_by_run DIST_BOTTOM_SENSOR_RANGE cs m.
Proof.
  unfold calls_made_by_run.
  destruct (run_cycles_calls DIST_BOTTOM_SENSOR_RANGE cs m) as [l Hl].
  rewrite Hl, skipn_length_app. reflexivity.
Qed.

Lemma schedule_calls_of_run cs : forall m,
  count_calls is_schedule_delayed
    (calls_made_by_run DIST_BOTTOM_SENSOR_RANGE cs m) = length cs
  /\ count_calls is_register_callback
       (calls_made_by_run DIST_BOTTOM_SENSOR_RANGE cs m) = 0%nat
  /\ count_calls is_schedule_clear
       (calls_made_by_run DIST_BOTTOM_SENSOR_RANGE cs m) =
     length (filter should_exit cs).
Proof.
  induction cs as [| c cs IH]; intros m.
  - rewrite calls_made_by_run_nil. repeat split.
  - destruct (IH (run_cycle DIST_BOTTOM_SENSOR_RANGE c m)) as (Hd & Hr & Hc).
    destruct (schedule_calls_of_cycle c m) as (Hd1 & Hr1 & Hc1).
    rewrite calls_made_by_run_cons, !count_calls_app, Hd, Hr, Hc, Hd1, Hr1,
      Hc1.
    cbn [filter length]. destruct (should_exit c); repeat split.
Qed.

(** X11.  The work item is scheduled once by [start] and once by every
    cycle.  After [start] and a run of cycles the log holds one more
    [ScheduleDelayed] per cycle plus the one of [start], one more
    [registerCallback], and one more [ScheduleClear] per cycle whose
    [should_exit()] was true. *)
Theorem schedule_calls_counted cs m :
  let log := calls (run_cycles DIST_BOTTOM_SENSOR_RANGE cs (exec start m)) in
  count_calls is_schedule_delayed log =
  (count_calls is_schedule_delayed (calls m) + 1 + length cs)%nat
  /\ count_calls is_register_callback log =
     (count_calls is_register_callback (calls m) + 1)%nat
  /\ count_calls is_schedule_clear log =
     (count_calls is_schedule_clear (calls m)
      + length (filter should_exit cs))%nat.
Proof.
  cbv zeta. rewrite run_cycles_log.
  destruct (schedule_calls_of_run cs (exec start m)) as (Hd & Hr & Hc).
  rewrite !count_calls_app, Hd, Hr, Hc.
  assert (Hstart : calls (exec start m) =
                   calls m ++ [CallScheduleDelayed _50_ms;
                               CallRegisterCallback]).
  { unfold start, ScheduleDelayed, registerCallback.
    rewrite exec_seq, !exec_emit. cbn [calls with_calls].
    rewrite <- app_assoc. reflexivity. }
  rewrite Hstart, !count_calls_app. cbn. lia.
Qed.

(** ** Flight time, edge cases *)

(** X13.  A takeoff first seen by the cycle that sees the disarm counts no
    flight time.  When the cycle publishes the change from landed to not
    landed with no takeoff tracked, at a clock that is not zero, and finds
    the vehicle disarmed after it was armed, the accumulator keeps the
    value the refresh step left, [_takeoff_time] ends cleared, and the two
    halves of that value are committed all the same. *)
Theorem takeoff_seen_on_disarm_adds_nothing c m :
  landed (_land_detected (self m)) = true ->
  landed_hysteresis_state c = false ->
  _takeoff_time (self m) = 0 ->
  now_us c <> 0 ->
  _previous_armed_state (self m) = true ->
  _armed (self (run_cycle DIST_BOTTOM_SENSOR_RANGE c m)) = false ->
  Word.is_uint64 (_total_flight_time (self (exec refresh_parameters m))) ->
  let m' := run_cycle DIST_BOTTOM_SENSOR_RANGE c m in
  let before := _total_flight_time (self (exec refresh_parameters m)) in
  _total_flight_time (self m') = before
  /\ _takeoff_time (self m') = 0
  /\ commits (calls_made DIST_BOTTOM_SENSOR_RANGE c m) =
     [(total_flight_time_high, param_high_of before);
      (total_flight_time_low, param_low_of before)].
Proof.
  intros Hl Hs Ht Hnow Hprev Harmed Hrange. cbv zeta.
  rewrite Run_armed in Harmed.
  rewrite refresh_parameters_total_flight_time in *.
  assert (Hp : published c m = true).
  { apply published_iff. right. left. congruence. }
  assert (Hrec : takeoff_recorded c m = true)
    by (apply takeoff_recorded_iff; auto).
  assert (Htk : takeoff_time_after_publish c m = now_us c)
    by (unfold takeoff_time_after_publish; rewrite Hrec; reflexivity).
  assert (Hd : disarm_processed c m = true).
  { apply disarm_processed_iff. rewrite Htk. auto. }
  assert (Htotal : total_flight_time_after_cycle c m =
                   total_flight_time_after_refresh m).
  { unfold total_flight_time_after_cycle. rewrite Hd, Htk, Z.sub_diag.
    change (Word.to_uint64 0) with 0. rewrite Z.add_0_r.
    apply to_uint64_small, Hrange. }
  rewrite Run_total_flight_time, Run_takeoff_time, calls_made_spec,
    commits_of_cycle, Hd, Htotal.
  repeat split.
Qed.

(** X14.  The accumulator does not go down.  In a cycle that does not
    reload it (no refresh due, or the store in agreement), with the
    takeoff time not after [now_us] and no overflow of the 64 bits, the
    accumulator after the cycle is at least the accumulator before. *)
Theorem flight_time_never_decreases c m :
  refresh_due m = false \/ params_in_sync m ->
  Word.is_uint64 (_total_flight_time (self m)) ->
  0 <= _takeoff_time (self m) <= now_us c ->
  _total_flight_time (self m) + now_us c < 2 ^ 64 ->
  _total_flight_time (self m) <=
  _total_flight_time (self (run_cycle DIST_BOTTOM_SENSOR_RANGE c m)).
Proof.
  intros Hkept Hrange Htk Hroom.
  rewrite Run_total_flight_time. unfold total_flight_time_after_cycle.
  rewrite (total_flight_time_after_refresh_kept m Hkept).
  assert (Hafter : 0 <= takeoff_time_after_publish c m <= now_us c).
  { unfold takeoff_time_after_publish.
    destruct (takeoff_recorded c m); lia. }
  unfold Word.is_uint64 in Hrange.
  destruct (disarm_processed c m); [ | lia ].
  rewrite (to_uint64_small (now_us c - _))
    by (unfold Word.is_uint64; lia).
  rewrite to_uint64_small by (unfold Word.is_uint64; lia).
  lia.
Qed.

(** ** Clocks *)

Lemma clock_kept c m t :
  t <= now_us c <= elapsed_clock c ->
  elapsed_clock c <= publish_clock c ->
  0 <= _takeoff_time (self m) <= t ->
  0 <= timestamp (_land_detected (self m)) <= t ->
  let m' := run_cycle DIST_BOTTOM_SENSOR_RANGE c m in
  0 <= _takeoff_time (self m') <= publish_clock c
  /\ timestamp (_land_detected (self m))
     <= timestamp (_land_detected (self m')) <= publish_clock c.
Proof.
  intros Hnow Hpub Htk Hts. cbv zeta.
  rewrite Run_takeoff_time, Run_land_detected.
  unfold takeoff_time_after_publish.
  destruct (disarm_processed c m), (takeoff_recorded c m), (published c m);
    cbn [timestamp new_land_detected]; lia.
Qed.

(** X15.  With a clock that never goes back, no time the engine keeps is
    in the future.  Over such a run, starting with [_takeoff_time] and the
    published time stamp not after the clock, both stay between zero and
    the last clock reading, and the published time stamp never goes
    back. *)
Theorem times_never_in_future cs : forall t m,
  clock_ok t cs ->
  0 <= _takeoff_time (self m) <= t ->
  0 <= timestamp (_land_detected (self m)) <= t ->
  let m' := run_cycles DIST_BOTTOM_SENSOR_RANGE cs m in
  0 <= _takeoff_time (self m') <= clock_end t cs
  /\ timestamp (_land_detected (self m))
     <= timestamp (_land_detected (self m')) <= clock_end t cs.
Proof.
  induction cs as [| c cs IH]; intros t m Hok Htk Hts; cbv zeta.
  - cbn [run_cycles clock_end]. lia.
  - destruct Hok as (Hnow & Hpub & Hrest).
    destruct (clock_kept c m t Hnow (proj1 Hpub) Htk Hts) as (Htk1 & Hts1).
    cbn [run_cycles clock_end].
    destruct (IH (publish_clock c)
                (run_cycle DIST_BOTTOM_SENSOR_RANGE c m) Hrest Htk1)
      as (Htk2 & Hts2); [ lia | ].
    cbv zeta in Htk2, Hts2. lia.
Qed.

(** ** No ranging sensor *)

(** X16.  Without a ranging sensor the hysteresis factor is never
    touched.  If the latch is not set, the cached position report has the
    ranging-sensor bit clear and so has every report delivered during a
    run, then the run ends with the latch not set, has made no call to
    [_set_hysteresis_factor] and has left [_high_hysteresis_active] as it
    was. *)
Theorem no_ranging_sensor_no_factor cs : forall m,
  _dist_bottom_is_observable (self m) = false ->
  Z.land (dist_bottom_sensor_bitfield (_vehicle_local_position (self m)))
         DIST_BOTTOM_SENSOR_RANGE = 0 ->
  Forall (fun c => forall lpos,
            vehicle_local_position_update c = Some lpos ->
            Z.land (dist_bottom_sensor_bitfield lpos)
                   DIST_BOTTOM_SENSOR_RANGE = 0) cs ->
  let m' := run_cycles DIST_BOTTOM_SENSOR_RANGE cs m in
  _dist_bottom_is_observable (self m') = false
  /\ hysteresis_factors
       (calls_made_by_run DIST_BOTTOM_SENSOR_RANGE cs m) = []
  /\ _high_hysteresis_active (self m') = _high_hysteresis_active (self m).
Proof.
  induction cs as [| c cs IH]; intros m Ho Hbit Hcs; cbv zeta.
  - rewrite calls_made_by_run_nil. repeat split. exact Ho.
  - inversion Hcs as [| ? ? Hc Hcs']; subst.
    assert (Hbit' : Z.land (dist_bottom_sensor_bitfield
                              (local_position_after c m))
                           DIST_BOTTOM_SENSOR_RANGE = 0).
    { unfold local_position_after.
      destruct (vehicle_local_position_update c) as [lpos | ];
        [ apply Hc; reflexivity | exact Hbit ]. }
    destruct (IH (run_cycle DIST_BOTTOM_SENSOR_RANGE c m))
      as (Ho' & Hnone & Hactive).
    + rewrite Run_dist_bottom_is_observable.
      unfold dist_bottom_is_observable_after.
      rewrite Ho, Hbit'. reflexivity.
    + rewrite Run_vehicle_local_position. exact Hbit'.
    + exact Hcs'.
    + cbn [run_cycles].
      rewrite calls_made_by_run_cons, hysteresis_factors_app,
        hysteresis_factors_of_cycle, hysteresis_factors_calls, Ho, Hnone,
        Hactive, Run_high_hysteresis_active.
      unfold high_hysteresis_active_after. rewrite Ho.
      repeat split. exact Ho'.
Qed.

(** ** A whole flight *)





End Runs.

(** * More scenarios, run *)

Lemma disarm_is_committed_once :
  commits (calls_made 1 (flying_cycle 5050000)
             (run_cycle 1 disarm_cycle airborne)) = []
  /\ stored_flight_time_low
       (run_cycle 1 (flying_cycle 5050000)
          (run_cycle 1 disarm_cycle airborne)) = 4000000
  /\ actuator_armed_update disarm_cycle = Some false.
Proof.
  destruct (disarm_processed_once 1 disarm_cycle (flying_cycle 5050000)
              airborne) as (_ & Hquiet).
  destruct (disarm_processed_once 1 takeoff_cycle disarm_cycle
              on_ground_armed) as (Hdisarm & _).
  destruct (Hquiet eq_refl) as (Hnone & _ & Hlow & _).
  split; [ exact Hnone | ].
  split; [ rewrite Hlow; reflexivity | ].
  apply Hdisarm. vm_compute. discriminate.
Defined.

Lemma in_range_after_a_flight :
  in_range (run_cycles 1 [takeoff_cycle; disarm_cycle] on_ground_armed).
Proof.
  apply in_range_after_run.
  - unfold in_range, Word.is_uint64, Word.is_int32. cbn. lia.
  - repeat constructor; unfold Word.is_uint64; cbn; lia.
Defined.

Lemma flight_time_after_restart :
  _total_flight_time (self (run_cycle 1 (flying_cycle 1000000) restarted))
  = 4000000.
Proof.
  rewrite (flight_time_survives_restart 1 [takeoff_cycle; disarm_cycle]
             (flying_cycle 1000000) on_ground_armed restarted);
    reflexivity.
Defined.

Lemma params_round_trip_negative :
  param_high_of (total_flight_time_of_params (-1) (-2147483648)) = -1
  /\ param_low_of (total_flight_time_of_params (-1) (-2147483648))
     = -2147483648.
Proof.
  apply params_round_trip; unfold Word.is_int32; lia.
Defined.

Lemma high_hysteresis_after_validity_lost_again :
  _high_hysteresis_active
    (self (run_cycles 1
             [position_cycle 1000000 true 1;
              position_cycle 1050000 false 1] ranging_seen)) = true.
Proof.
  rewrite (high_hysteresis_mirrors_validity 1
             [position_cycle 1050000 false 1]
             (position_cycle 1000000 true 1) ranging_seen eq_refl).
  reflexivity.
Defined.


Lemma no_commit_in_flight :
  commits (calls_made_by_run 1 [takeoff_cycle; flying_cycle 1050000]
             on_ground_armed) = []
  /\ _armed (self (run_cycle 1 disarm_cycle airborne)) = false.
Proof.
  destruct (no_commit_while_armed 1 takeoff_cycle on_ground_armed)
    as (_ & Hrun).
  destruct (no_commit_while_armed 1 disarm_cycle airborne) as (Hcycle & _).
  split.
  - apply Hrun; [ reflexivity | ]. repeat constructor; discriminate.
  - apply Hcycle. vm_compute. discriminate.
Defined.

Lemma no_refresh_during_a_flight :
  ~ In CallUpdateParams
      (calls_made_by_run 1 [takeoff_cycle; disarm_cycle] on_ground_armed).
Proof.
  apply (no_refresh_without_notification 1 [takeoff_cycle; disarm_cycle]
           on_ground_armed).
  - reflexivity.
  - cbn. discriminate.
  - repeat constructor; cbn; discriminate.
Defined.

Lemma takeoff_and_disarm_at_once :
  _total_flight_time
    (self (run_cycle 1 takeoff_and_disarm_cycle on_ground_armed)) = 0
  /\ _takeoff_time
       (self (run_cycle 1 takeoff_and_disarm_cycle on_ground_armed)) = 0
  /\ commits (calls_made 1 takeoff_and_disarm_cycle on_ground_armed) =
     [(total_flight_time_high, 0); (total_flight_time_low, 0)].
Proof.
  destruct (takeoff_seen_on_disarm_adds_nothing 1 takeoff_and_disarm_cycle
              on_ground_armed) as (Htotal & Hclear & Hcommits);
    try reflexivity.
  - cbn. discriminate.
  - unfold Word.is_uint64. vm_compute. split; [ discriminate | reflexivity ].
  - split; [ rewrite Htotal; reflexivity | ].
    split; [ exact Hclear | rewrite Hcommits; reflexivity ].
Defined.

Lemma flight_time_grows_on_disarm :
  _total_flight_time (self airborne) <=
  _total_flight_time (self (run_cycle 1 disarm_cycle airborne)).
Proof.
  apply flight_time_never_decreases.
  - left. reflexivity.
  - unfold Word.is_uint64. vm_compute. split; [ discriminate | reflexivity ].
  - vm_compute. split; discriminate.
  - vm_compute. reflexivity.
Defined.

Lemma times_of_a_flight :
  0 <= _takeoff_time
         (self (run_cycles 1 [takeoff_cycle; disarm_cycle] on_ground_armed))
    <= 5000002
  /\ 900000 <=
     timestamp
       (_land_detected
          (self (run_cycles 1 [takeoff_cycle; disarm_cycle]
                   on_ground_armed)))
     <= 5000002.
Proof.
  apply (times_never_in_future 1 [takeoff_cycle; disarm_cycle] 900000
           on_ground_armed).
  - cbn. lia.
  - cbn. lia.
  - cbn. lia.
Defined.

Lemma flow_sensor_only_sets_no_factor :
  _dist_bottom_is_observable
    (self (run_cycles 1
             [position_cycle 950000 false 2; flying_cycle 1000000]
             on_ground_armed)) = false
  /\ hysteresis_factors
       (calls_made_by_run 1
          [position_cycle 950000 false 2; flying_cycle 1000000]
          on_ground_armed) = [].
Proof.
  destruct (no_ranging_sensor_no_factor 1
              [position_cycle 950000 false 2; flying_cycle 1000000]
              on_ground_armed) as (Hlatch & Hnone & _).
  - reflexivity.
  - reflexivity.
  - repeat constructor; cbn; intros lpos H; inversion H; reflexivity.
  - split; [ exact Hlatch | exact Hnone ].
Defined.

